(** * anthropic-azure-provider: converters, stream processor, request body

    A shallow embedding of the TypeScript sources

    - [src/errors.ts]      (module [Errors]),
    - [src/converters.ts]  (module [Converters]),
    - [src/stream.ts]      (module [Stream]),
    - [src/model.ts]       (module [Model]),

    followed by the properties of the specification, one theorem per
    claim.  Strings are [string]; block indices and token counts are
    [Z], numbers that are only passed on are rationals; a [Map] is a
    [gmap], a [Set] a [gset]; an optional field [f?: T] is an
    [option T] ([None] is [undefined]); a call that may throw returns
    an [outcome]. *)

From Stdlib Require Import ZArith String Ascii List.
From Stdlib Require Strings.Byte QArith.
From stdpp Require Import base option list gmap sets strings pretty.

Local Open Scope string_scope.
Local Open Scope list_scope.
Set Warnings "-register-all".

(* ===================================================================== *)
(** ** src/errors.ts *)
(* ===================================================================== *)

Module Errors.

(** [code: "validation" | "conversion"] *)
Inductive ErrorCode : Set := validation | conversion.

(** [class AzureAnthropicError extends Error]; [message] is the
    field [Error] itself holds. *)
Record AzureAnthropicError : Set := mkError {
  provider : string;
  code : ErrorCode;
  message : string;
  field : option string
}.

(** [constructor(code, message, field?)]: the third argument is
    optional, a call with two arguments leaves [field] undefined. *)
Definition new_AzureAnthropicError
    (c : ErrorCode) (msg : string) (fld : option string) : AzureAnthropicError :=
  {| provider := "azure-anthropic"; code := c; message := msg; field := fld |}.

(** The result of a call that may throw.  [IllTyped] marks an input
    that breaks the typing an unchecked [as] cast of the source
    assumes; the embedding does not follow the program there. *)
Inductive outcome (A : Type) : Type :=
  | Returns (a : A)
  | Throws (e : AzureAnthropicError)
  | IllTyped.
Arguments Returns {A} a.
Arguments Throws {A} e.
Arguments IllTyped {A}.

#[export] Instance outcome_ret : MRet outcome := @Returns.
#[export] Instance outcome_bind : MBind outcome := fun A B f m =>
  match m with
  | Returns a => f a
  | Throws e => Throws e
  | IllTyped => IllTyped
  end.

End Errors.
Export Errors.

(* ===================================================================== *)
(** ** Values of the JavaScript runtime the sources rely on *)
(* ===================================================================== *)

(** A value of type [unknown] as far as the sources look at it: a JSON
    value.  Numbers are kept as integers; the code never computes with
    them. *)
Inductive JsValue : Set :=
  | JNull
  | JBool (b : bool)
  | JNumber (n : Z)
  | JString (s : string)
  | JArray (items : list JsValue)
  | JObject (fields : list (string * JsValue)).

(** What a failing [JSON.parse] throws. *)
Inductive SyntaxError : Set := mkSyntaxError (msg : string).

(** The built-ins the converters call.  They belong to the platform,
    not to this repository, and stay abstract:
    [JSON.parse] returns a value or throws a [SyntaxError];
    [JSON.stringify] of a JSON value is a string;
    [Buffer.from(bytes).toString("base64")] (or [btoa] in a browser). *)
Class JsRuntime : Type := {
  JSON_parse : string -> JsValue + SyntaxError;
  JSON_stringify : JsValue -> string;
  base64 : list Byte.byte -> string
}.

(** A JS string is truthy when it is not empty. *)
Definition truthy (s : string) : bool := negb (String.eqb s "").

(** The line feed of ["\n"]. *)
Definition LF : string := String (ascii_of_nat 10) "".

(* ===================================================================== *)
(** ** src/converters.ts *)
(* ===================================================================== *)

Module Converters.

(** *** Unified (V3) side *)

Inductive V3Role : Set := system | user | assistant | tool.

(** [data: string | Uint8Array] *)
Inductive FileData : Set :=
  | DataString (s : string)
  | DataBytes (bytes : list Byte.byte).

(** [args: string | Record<string, unknown>] *)
Inductive ToolArgs : Set :=
  | ArgsString (s : string)
  | ArgsRecord (fields : list (string * JsValue)).

(** [interface IV3ContentPart]: a string tag and optional fields. *)
Record IV3ContentPart : Set := {
  type : string;
  text : option string;
  data : option FileData;
  mediaType : option string;
  toolCallId : option string;
  toolName : option string;
  args : option ToolArgs;
  result : option JsValue;
  isError : option bool
}.

(** [content: string | ReadonlyArray<IV3ContentPart>] *)
Inductive V3Content : Set :=
  | Str (s : string)
  | Parts (parts : list IV3ContentPart).

Record IV3Message : Set := {
  role : V3Role;
  content : V3Content
}.

(** The narrowed part interfaces behind [type ContentPart]. *)
Record ITextPart : Set := { tp_text : string }.
Record IFilePart : Set := { fp_data : FileData; fp_mediaType : string }.
Record IToolCallPart : Set := {
  tc_toolCallId : string;
  tc_toolName : string;
  tc_args : ToolArgs
}.

(** [type ContentPart = ITextPart | IFilePart | IToolCallPart]; the
    [default] branch of [convertContentPart] is reached by any other
    tag, kept here as [OtherPart]. *)
Inductive ContentPart : Set :=
  | TextPart (p : ITextPart)
  | FilePart (p : IFilePart)
  | ToolCallPart (p : IToolCallPart)
  | OtherPart (tag : string).

(** [export type IV3FinishReason] *)
Inductive IV3FinishReason : Set :=
  | FinishStop            (* "stop" *)
  | FinishLength          (* "length" *)
  | FinishContentFilter   (* "content-filter" *)
  | FinishToolCalls       (* "tool-calls" *)
  | FinishError           (* "error" *)
  | FinishOther.          (* "other" *)

(** *** Vendor (Anthropic) side *)

(** The vendor types are those of [types.ts] (in the sources it
    follows [src/provider.ts]). *)

(** [role: "user" | "assistant"] of [IAnthropicMessage]. *)
Inductive AnthropicRole : Set := role_user | role_assistant.

Definition role_name (r : AnthropicRole) : string :=
  match r with role_user => "user" | role_assistant => "assistant" end.

(** [type IAnthropicContentBlock], the union of the four block
    interfaces.  An image block is
    [{ type: "image", source: { type: "base64", media_type, data } }];
    the content of a [tool_result] block is declared a string and
    holds what [JSON.stringify] gave, which at run time is [undefined]
    for an absent result, hence the [option]. *)
Inductive IAnthropicContentBlock : Set :=
  | TextBlock (text : string)
  | ImageBlock (media_type : string) (data : string)
  | ToolUseBlock (id : string) (name : string) (input : JsValue)
  | ToolResultBlock (tool_use_id : string) (content : option string)
                    (is_error : option bool).

(** [content: string | ReadonlyArray<IAnthropicContentBlock>] *)
Inductive AnthropicContent : Set :=
  | CString (s : string)
  | CBlocks (blocks : list IAnthropicContentBlock).

(** [interface IAnthropicMessage] *)
Record IAnthropicMessage : Set := {
  m_role : AnthropicRole;
  m_content : AnthropicContent
}.

(** [export interface IConvertedPrompt] *)
Record IConvertedPrompt : Set := {
  cp_system : option string;
  cp_messages : list IAnthropicMessage
}.

#[export] Instance AnthropicRole_eq_dec : EqDecision AnthropicRole.
Proof. solve_decision. Defined.

Definition SUPPORTED_IMAGE_TYPES : list string :=
  ["image/jpeg"; "image/png"; "image/gif"; "image/webp"].

(** *** [convertStopReason] *)

Definition convertStopReason (reason : option string) : IV3FinishReason :=
  match reason with
  | Some r =>
      if String.eqb r "end_turn" then FinishStop
      else if String.eqb r "stop_sequence" then FinishStop
      else if String.eqb r "max_tokens" then FinishLength
      else if String.eqb r "tool_use" then FinishToolCalls
      else FinishOther
  | None => FinishOther
  end.

(** *** Tools and tool choice *)

(** Modelled from the spec: [LanguageModelV3FunctionTool] of
    [@ai-sdk/provider], [{ type: "function", name, description?,
    inputSchema }] (section 6). *)
Record LanguageModelV3FunctionTool : Set := {
  ft_name : string;
  ft_description : option string;
  ft_inputSchema : JsValue
}.

(** [interface IAnthropicTool] *)
Record IAnthropicTool : Set := {
  at_name : string;
  at_input_schema : JsValue;
  at_description : option string
}.

Definition convertTools (tools : list LanguageModelV3FunctionTool)
  : list IAnthropicTool :=
  map (fun tool => {| at_name := ft_name tool;
                      at_input_schema := ft_inputSchema tool;
                      at_description := ft_description tool |}) tools.

(** Modelled from the spec: [LanguageModelV3ToolChoice] of
    [@ai-sdk/provider], a closed union of the four shapes auto, none,
    required and [{ tool, toolName }] (section 6), so the [default]
    branch of [convertToolChoice] has no input. *)
Inductive LanguageModelV3ToolChoice : Set :=
  | ChoiceAuto
  | ChoiceNone
  | ChoiceRequired
  | ChoiceTool (toolName : string).

(** [type: "auto" | "any" | "tool"] *)
Inductive AnthropicToolChoiceType : Set := tc_auto | tc_any | tc_tool.

(** [interface IAnthropicToolChoice] *)
Record IAnthropicToolChoice : Set := {
  choice_type : AnthropicToolChoiceType;
  choice_name : option string
}.

Definition convertToolChoice (choice : LanguageModelV3ToolChoice)
  : IAnthropicToolChoice :=
  match choice with
  | ChoiceAuto => {| choice_type := tc_auto; choice_name := None |}
  | ChoiceNone => {| choice_type := tc_auto; choice_name := None |}
  | ChoiceRequired => {| choice_type := tc_any; choice_name := None |}
  | ChoiceTool n => {| choice_type := tc_tool; choice_name := Some n |}
  end.

(** *** Private helpers *)

Section WithRuntime.
Context `{rt : JsRuntime}.

(** [filter(type === "text" && typeof text === "string").map(text).join("\n")] *)
Definition extractSystemContent (message : IV3Message) : string :=
  match content message with
  | Str s => s
  | Parts parts =>
      String.concat LF
        (omap (fun part => if String.eqb (type part) "text" then text part else None)
              parts)
  end.

(** The body of the [if] inside the loop of [convertToolResultMessage]. *)
Definition toolResultBlock (id : string) (part : IV3ContentPart)
  : IAnthropicContentBlock :=
  let resultContent :=
    match result part with
    | Some (JString s) => Some s
    | Some v => Some (JSON_stringify v)
    | None => None
    end in
  ToolResultBlock id resultContent (isError part).

(** [part.type === "tool-result" && part.toolCallId]: the id when the
    test holds. *)
Definition toolResultId (part : IV3ContentPart) : option string :=
  if String.eqb (type part) "tool-result" then
    match toolCallId part with
    | Some id => if truthy id then Some id else None
    | None => None
    end
  else None.

(** One round of the loop of [convertToolResultMessage]; [content] is
    the array pushed to. *)
Definition pushToolResult (content : list IAnthropicContentBlock)
    (part : IV3ContentPart) : list IAnthropicContentBlock :=
  match toolResultId part with
  | Some id => content ++ [toolResultBlock id part]
  | None => content
  end.

Definition convertToolResultMessage (message : IV3Message) : IAnthropicMessage :=
  match content message with
  | Str s => {| m_role := role_user; m_content := CString s |}
  | Parts parts =>
      let content := fold_left pushToolResult parts [] in
      {| m_role := role_user; m_content := CBlocks content |}
  end.

Definition validateImageMediaType (mediaType : string) : outcome string :=
  if bool_decide (mediaType ∈ SUPPORTED_IMAGE_TYPES) then Returns mediaType
  else Throws (new_AzureAnthropicError conversion
         ("Unsupported image media type: " ++ mediaType ++ ". Supported: "
          ++ String.concat ", " SUPPORTED_IMAGE_TYPES) None).

(** [data] is a [Uint8Array] or a string, so the closing [throw] of the
    source ("Invalid file data format") has no input. *)
Definition extractBase64Data (data : FileData) : string :=
  match data with
  | DataBytes bytes => base64 bytes
  | DataString s =>
      if String.prefix "data:" s then
        match String.index 0 "," s with
        | Some commaIndex =>
            String.substring (commaIndex + 1)
                             (String.length s - (commaIndex + 1)) s
        | None => s
        end
      else s
  end.

Definition convertFilePart (part : IFilePart) : outcome IAnthropicContentBlock :=
  mediaType ← validateImageMediaType (fp_mediaType part);
  let data := extractBase64Data (fp_data part) in
  Returns (ImageBlock mediaType data).

(** [try { input = JSON.parse(args) } catch { input = {} }] *)
Definition convertToolCallPart (part : IToolCallPart) : IAnthropicContentBlock :=
  let input :=
    match tc_args part with
    | ArgsString s =>
        match JSON_parse s with
        | inl v => v
        | inr _ => JObject []
        end
    | ArgsRecord fields => JObject fields
    end in
  ToolUseBlock (tc_toolCallId part) (tc_toolName part) input.

Definition convertContentPart (part : ContentPart) (role : AnthropicRole)
  : outcome IAnthropicContentBlock :=
  match part with
  | TextPart p => Returns (TextBlock (tp_text p))
  | FilePart p =>
      match role with
      | role_user => convertFilePart p
      | role_assistant =>
          Throws (new_AzureAnthropicError conversion
                    "Unsupported assistant content part type: file" None)
      end
  | ToolCallPart p =>
      match role with
      | role_assistant => Returns (convertToolCallPart p)
      | role_user =>
          Throws (new_AzureAnthropicError conversion
                    "Unsupported user content part type: tool-call" None)
      end
  | OtherPart tag =>
      Throws (new_AzureAnthropicError conversion
                ("Unsupported " ++ role_name role ++ " content part type: " ++ tag)
                None)
  end.

(** [part as ContentPart]: the cast is unchecked; a part tagged text,
    file or tool-call that lacks a field its narrowed interface
    requires is outside the typing the cast asserts. *)
Definition asContentPart (part : IV3ContentPart) : outcome ContentPart :=
  if String.eqb (type part) "text" then
    match text part with
    | Some t => Returns (TextPart {| tp_text := t |})
    | None => IllTyped
    end
  else if String.eqb (type part) "file" then
    match data part, mediaType part with
    | Some d, Some m => Returns (FilePart {| fp_data := d; fp_mediaType := m |})
    | _, _ => IllTyped
    end
  else if String.eqb (type part) "tool-call" then
    match toolCallId part, toolName part, args part with
    | Some i, Some n, Some a =>
        Returns (ToolCallPart {| tc_toolCallId := i; tc_toolName := n; tc_args := a |})
    | _, _, _ => IllTyped
    end
  else Returns (OtherPart (type part)).

(** The [for] loop of [convertContentForRole]; [blocks] is the array
    pushed to. *)
Fixpoint convertParts (content : list IV3ContentPart) (role : AnthropicRole)
    (blocks : list IAnthropicContentBlock) : outcome (list IAnthropicContentBlock) :=
  match content with
  | [] => Returns blocks
  | part :: rest =>
      p ← asContentPart part;
      converted ← convertContentPart p role;
      convertParts rest role (blocks ++ [converted])
  end.

Definition convertContentForRole (content : V3Content) (role : AnthropicRole)
  : outcome AnthropicContent :=
  match content with
  | Str s => Returns (CString s)
  | Parts parts =>
      blocks ← convertParts parts role [];
      match blocks with
      | [TextBlock t] => Returns (CString t)
      | _ => Returns (CBlocks blocks)
      end
  end.

Definition normalizeContent (content : AnthropicContent)
  : list IAnthropicContentBlock :=
  match content with
  | CString s => [TextBlock s]
  | CBlocks blocks => blocks
  end.

(** One round of the loop of [mergeConsecutiveMessages]:
    [lastMessage] is [merged[merged.length - 1]]. *)
Definition mergeStep (merged : list IAnthropicMessage) (message : IAnthropicMessage)
  : list IAnthropicMessage :=
  match last merged with
  | Some lastMessage =>
      if decide (m_role lastMessage = m_role message) then
        let lastContent := normalizeContent (m_content lastMessage) in
        let currentContent := normalizeContent (m_content message) in
        <[ pred (List.length merged) :=
             {| m_role := m_role message;
                m_content := CBlocks (lastContent ++ currentContent) |} ]> merged
      else merged ++ [message]
  | None => merged ++ [message]
  end.

Definition mergeConsecutiveMessages (messages : list IAnthropicMessage)
  : list IAnthropicMessage :=
  fold_left mergeStep messages [].

(** The loop of [convertPrompt], before the merge. *)
Fixpoint convertMessages (prompt : list IV3Message) (system : option string)
    (messages : list IAnthropicMessage)
  : outcome (option string * list IAnthropicMessage) :=
  match prompt with
  | [] => Returns (system, messages)
  | message :: rest =>
      match role message with
      | Converters.system =>
          convertMessages rest (Some (extractSystemContent message)) messages
      | user =>
          c ← convertContentForRole (content message) role_user;
          convertMessages rest system
            (messages ++ [{| m_role := role_user; m_content := c |}])
      | assistant =>
          c ← convertContentForRole (content message) role_assistant;
          convertMessages rest system
            (messages ++ [{| m_role := role_assistant; m_content := c |}])
      | tool =>
          convertMessages rest system (messages ++ [convertToolResultMessage message])
      end
  end.

Definition convertPrompt (prompt : list IV3Message) : outcome IConvertedPrompt :=
  r ← convertMessages prompt None [];
  Returns {| cp_system := fst r; cp_messages := mergeConsecutiveMessages (snd r) |}.

End WithRuntime.

End Converters.

(* ===================================================================== *)
(** ** src/stream.ts *)
(* ===================================================================== *)

Module Stream.
Import Converters.

(** The value of [toolCalls]: [{ id; name; argsText }]. *)
Record ToolCallAccumulator : Set := {
  acc_id : string;
  acc_name : string;
  argsText : string
}.

Record StreamState : Type := {
  toolCalls : gmap Z ToolCallAccumulator;
  textBlockIds : gset Z;
  inputTokens : Z;
  outputTokens : Z;
  finishReasonRaw : string
}.

(** The [content_block] of [IAnthropicContentBlockStartEvent]
    ([types.ts]): [{ type, id?, name?, text? }]; the processor does not
    read [text].  The tag is declared ["text" | "tool_use"] and kept a
    string, as the code compares it. *)
Record ContentBlockStart : Set := {
  cb_type : string;
  cb_id : option string;
  cb_name : option string
}.

(** The [delta] of [IAnthropicContentBlockDeltaEvent] ([types.ts]):
    [{ type, text?, partial_json? }], the tag kept a string. *)
Record StreamDelta : Set := {
  d_type : string;
  d_text : option string;
  d_partial_json : option string
}.

(** [type IAnthropicStreamEvent] ([types.ts]), the union of the five
    event interfaces, with the fields [processStreamEvent] reads.
    [message_start] carries [event.message?.usage?.input_tokens];
    [message_delta] carries [event.delta?.stop_reason], which is absent
    ([None]), [null] ([Some None]) or a string, and
    [event.usage?.output_tokens].  [other_event] is any event the
    [switch] has no case for. *)
Inductive IAnthropicStreamEvent : Set :=
  | message_start (input_tokens : option Z)
  | content_block_start (index : Z) (content_block : ContentBlockStart)
  | content_block_delta (index : Z) (delta : StreamDelta)
  | content_block_stop (index : Z)
  | message_delta (stop_reason : option (option string)) (output_tokens : option Z)
  | other_event (tag : string).

(** The [usage] object literal of the [finish] part: [inputTokens]
    with [total], [noCache], [cacheRead], [cacheWrite], and
    [outputTokens] with [total], [text], [reasoning]. *)
Record Usage : Set := {
  inputTokens_total : Z;
  inputTokens_noCache : option Z;
  inputTokens_cacheRead : option Z;
  inputTokens_cacheWrite : option Z;
  outputTokens_total : Z;
  outputTokens_text : Z;
  outputTokens_reasoning : option Z
}.

(** Modelled from the spec: [LanguageModelV3StreamPart] of
    [@ai-sdk/provider], the seven UnifiedStreamEvent kinds of section 3
    with the fields the processor fills in.  [E] is the type of what
    the event source throws. *)
Inductive LanguageModelV3StreamPart (E : Type) : Type :=
  | stream_start (warnings : list string)
  | text_start (id : string)
  | text_delta (id : string) (delta : string)
  | text_end (id : string)
  | tool_call (toolCallId : string) (toolName : string) (input : string)
  | finish (unified : IV3FinishReason) (raw : string) (usage : Usage)
  | error (err : E).
Arguments stream_start {E} warnings.
Arguments text_start {E} id.
Arguments text_delta {E} id delta.
Arguments text_end {E} id.
Arguments tool_call {E} toolCallId toolName input.
Arguments finish {E} unified raw usage.
Arguments error {E} err.

(** An [AsyncIterable] that ends: the events it yields, then normal
    completion or a fault thrown by the source itself. *)
Inductive Ending (E : Type) : Type :=
  | Completed
  | Raised (fault : E).
Arguments Completed {E}.
Arguments Raised {E} fault.

Record AsyncIterable (E : Type) : Type := {
  events : list IAnthropicStreamEvent;
  ending : Ending E
}.
Arguments events {E} _.
Arguments ending {E} _.

(** What a reader of the returned [ReadableStream] gets: the chunks
    enqueued, and whether the controller was closed. *)
Record ReadableStream (E : Type) : Type := {
  chunks : list (LanguageModelV3StreamPart E);
  closed : bool
}.
Arguments chunks {E} _.
Arguments closed {E} _.

(** [`text-${index}`] *)
Definition textId (index : Z) : string := "text-" ++ pretty index.

Definition initialState : StreamState :=
  {| toolCalls := ∅; textBlockIds := ∅;
     inputTokens := 0; outputTokens := 0; finishReasonRaw := "other" |}.

Section WithFault.
Context {E : Type}.
Abbreviation part := (LanguageModelV3StreamPart E).

Definition processStreamEvent (event : IAnthropicStreamEvent) (state : StreamState)
  : list part * StreamState :=
  match event with
  | message_start inputTokens =>
      match inputTokens with
      | Some n =>
          ([], {| toolCalls := toolCalls state; textBlockIds := textBlockIds state;
                  inputTokens := n; outputTokens := outputTokens state;
                  finishReasonRaw := finishReasonRaw state |})
      | None => ([], state)
      end
  | content_block_start index block =>
      let '(parts, ids) :=
        if String.eqb (cb_type block) "text"
        then ([text_start (textId index)], {[ index ]} ∪ textBlockIds state)
        else ([], textBlockIds state) in
      let calls :=
        match cb_id block, cb_name block with
        | Some i, Some n =>
            if String.eqb (cb_type block) "tool_use" && truthy i && truthy n
            then <[ index := {| acc_id := i; acc_name := n; argsText := "" |} ]>
                   (toolCalls state)
            else toolCalls state
        | _, _ => toolCalls state
        end in
      (parts, {| toolCalls := calls; textBlockIds := ids;
                 inputTokens := inputTokens state; outputTokens := outputTokens state;
                 finishReasonRaw := finishReasonRaw state |})
  | content_block_delta index delta =>
      let '(parts, ids) :=
        match d_text delta with
        | Some t =>
            if String.eqb (d_type delta) "text_delta" then
              if bool_decide (index ∈ textBlockIds state)
              then ([text_delta (textId index) t], textBlockIds state)
              else ([text_start (textId index); text_delta (textId index) t],
                    {[ index ]} ∪ textBlockIds state)
            else ([], textBlockIds state)
        | None => ([], textBlockIds state)
        end in
      let calls :=
        match d_partial_json delta with
        | Some partial_json =>
            if String.eqb (d_type delta) "input_json_delta" && truthy partial_json then
              match toolCalls state !! index with
              | Some toolCall =>
                  <[ index := {| acc_id := acc_id toolCall; acc_name := acc_name toolCall;
                                 argsText := argsText toolCall ++ partial_json |} ]>
                    (toolCalls state)
              | None => toolCalls state
              end
            else toolCalls state
        | None => toolCalls state
        end in
      (parts, {| toolCalls := calls; textBlockIds := ids;
                 inputTokens := inputTokens state; outputTokens := outputTokens state;
                 finishReasonRaw := finishReasonRaw state |})
  | content_block_stop index =>
      let parts :=
        if bool_decide (index ∈ textBlockIds state)
        then [text_end (textId index)] else [] in
      match toolCalls state !! index with
      | Some toolCall =>
          (parts ++ [tool_call (acc_id toolCall) (acc_name toolCall)
                               (if truthy (argsText toolCall)
                                then argsText toolCall else "{}")],
           {| toolCalls := delete index (toolCalls state);
              textBlockIds := textBlockIds state;
              inputTokens := inputTokens state; outputTokens := outputTokens state;
              finishReasonRaw := finishReasonRaw state |})
      | None => (parts, state)
      end
  | message_delta stopReason outputTokens' =>
      let out := match outputTokens' with
                 | Some n => n
                 | None => outputTokens state
                 end in
      let raw := match stopReason with
                 | Some (Some r) => r
                 | _ => finishReasonRaw state
                 end in
      ([], {| toolCalls := toolCalls state; textBlockIds := textBlockIds state;
              inputTokens := inputTokens state; outputTokens := out;
              finishReasonRaw := raw |})
  | other_event _ => ([], state)
  end.

(** The [for await] loop: [queue] is what the controller holds. *)
Fixpoint consume (evs : list IAnthropicStreamEvent) (hasEmittedStart : bool)
    (state : StreamState) (queue : list part) : list part * StreamState :=
  match evs with
  | [] => (queue, state)
  | event :: rest =>
      let queue := if hasEmittedStart then queue else queue ++ [stream_start []] in
      let '(parts, state) := processStreamEvent event state in
      consume rest true state (queue ++ parts)
  end.

Definition finishPart (state : StreamState) : part :=
  let unified := convertStopReason (Some (finishReasonRaw state)) in
  finish unified (finishReasonRaw state)
    {| inputTokens_total := inputTokens state;
       inputTokens_noCache := None;
       inputTokens_cacheRead := None;
       inputTokens_cacheWrite := None;
       outputTokens_total := outputTokens state;
       outputTokens_text := outputTokens state;
       outputTokens_reasoning := None |}.

(** [try { loop; enqueue(finish) } catch (error) { enqueue(error) }
     finally { close() }] *)
Definition processStream (anthropicStream : AsyncIterable E) : ReadableStream E :=
  let '(queue, state) := consume (events anthropicStream) false initialState [] in
  match ending anthropicStream with
  | Completed => {| chunks := queue ++ [finishPart state]; closed := true |}
  | Raised err => {| chunks := queue ++ [error err]; closed := true |}
  end.

End WithFault.

End Stream.

(* ===================================================================== *)
(** ** src/model.ts *)
(* ===================================================================== *)

Module Model.
Import Converters.

(** A JS number that is only passed on (temperature, top-p, top-k,
    token limits): a rational, never computed with. *)
Definition number : Set := QArith_base.Q.

(** Modelled from the spec: an entry of [options.tools]
    ([@ai-sdk/provider]): a function tool, or a tool of another [type]
    that the filter drops. *)
Inductive LanguageModelV3Tool : Set :=
  | FunctionTool (t : LanguageModelV3FunctionTool)
  | ProviderTool (tag : string).

(** Modelled from the spec: [LanguageModelV3CallOptions] of
    [@ai-sdk/provider], the inbound inputs of section 6 that
    [buildRequestBody] reads; every generation parameter is optional. *)
Record LanguageModelV3CallOptions : Set := {
  prompt : list IV3Message;
  tools : option (list LanguageModelV3Tool);
  toolChoice : option LanguageModelV3ToolChoice;
  maxOutputTokens : option number;
  temperature : option number;
  topP : option number;
  topK : option number;
  stopSequences : option (list string)
}.

(** [interface IAzureAnthropicModelOptions] ([types.ts]) *)
Record IAzureAnthropicModelOptions : Set := {
  opt_maxOutputTokens : option number
}.

(** The members of [AzureAnthropicLanguageModel] that
    [buildRequestBody] reads through [this]. *)
Record AzureAnthropicLanguageModel : Set := {
  modelId : string;
  options : IAzureAnthropicModelOptions
}.

(** The object literal [buildRequestBody] returns: three fields always
    there, eight spread in under a condition (absent is [None]). *)
Record RequestBody : Set := {
  model : string;
  max_tokens : number;
  messages : list IAnthropicMessage;
  stream : option bool;
  system : option string;
  body_temperature : option number;
  top_p : option number;
  top_k : option number;
  stop_sequences : option (list string);
  body_tools : option (list IAnthropicTool);
  tool_choice : option IAnthropicToolChoice
}.

(** [filter(t => t.type === "function")] *)
Definition functionToolsOf (ts : list LanguageModelV3Tool)
  : list LanguageModelV3FunctionTool :=
  omap (fun t => match t with FunctionTool f => Some f | ProviderTool _ => None end) ts.

(** [a ?? b] *)
Definition nullish {A : Type} (a : option A) (b : A) : A :=
  match a with Some x => x | None => b end.

Section WithRuntime.
Context `{rt : JsRuntime}.

Definition buildRequestBody (this : AzureAnthropicLanguageModel)
    (opts : LanguageModelV3CallOptions) (isStreaming : bool) : outcome RequestBody :=
  convertedPrompt ← convertPrompt (prompt opts);
  let functionTools := functionToolsOf <$> tools opts in
  let anthropicTools :=
    match functionTools with
    | Some fts => if (0 <? List.length fts)%nat then Some (convertTools fts) else None
    | None => None
    end in
  let anthropicToolChoice := convertToolChoice <$> toolChoice opts in
  let maxTokens :=
    nullish (maxOutputTokens opts)
            (nullish (opt_maxOutputTokens (options this)) (QArith_base.Qmake 4096 1)) in
  Returns
    {| model := modelId this;
       max_tokens := maxTokens;
       messages := cp_messages convertedPrompt;
       stream := if isStreaming then Some true else None;
       system := match cp_system convertedPrompt with
                 | Some s => if truthy s then Some s else None
                 | None => None
                 end;
       body_temperature := temperature opts;
       top_p := topP opts;
       top_k := topK opts;
       stop_sequences := stopSequences opts;
       body_tools := match anthropicTools with
                     | Some ts => if (0 <? List.length ts)%nat then Some ts else None
                     | None => None
                     end;
       tool_choice := anthropicToolChoice |}.

End WithRuntime.

End Model.

(* ===================================================================== *)
(** ** src/converters.ts, response side *)
(* ===================================================================== *)

Module Response.
Import Converters.

(** [type IAnthropicResponseContentBlock =
      IAnthropicTextBlock | IAnthropicToolUseBlock] ([types.ts]) *)
Inductive IAnthropicResponseContentBlock : Set :=
  | ResponseText (text : string)
  | ResponseToolUse (id : string) (name : string) (input : JsValue).

(** [export type IV3Content = IV3TextContent | IV3ToolCallContent] *)
Inductive IV3Content : Set :=
  | V3Text (text : string)
  | V3ToolCall (toolCallId : string) (toolName : string) (args : string).

(** A response block seen as a block of a vendor message. *)
Definition asContentBlock (block : IAnthropicResponseContentBlock)
  : IAnthropicContentBlock :=
  match block with
  | ResponseText t => TextBlock t
  | ResponseToolUse i n v => ToolUseBlock i n v
  end.

Section WithRuntime.
Context `{rt : JsRuntime}.

Definition convertContent (content : list IAnthropicResponseContentBlock)
  : list IV3Content :=
  map (fun block =>
         match block with
         | ResponseText t => V3Text t
         | ResponseToolUse i n v => V3ToolCall i n (JSON_stringify v)
         end) content.

End WithRuntime.

End Response.

(* ===================================================================== *)
(** ** src/provider.ts *)
(* ===================================================================== *)

Module Provider.
Import Model.

(** [interface IAzureAnthropicProviderOptions] ([types.ts]) *)
Record IAzureAnthropicProviderOptions : Set := {
  baseURL : string;
  apiKey : string;
  headers : option (list (string * string))
}.

(** What [new AnthropicFoundry({...})] is given; the client itself is
    the transport and stays outside. *)
Record AnthropicFoundry : Set := {
  client_apiKey : string;
  client_baseURL : string;
  client_defaultHeaders : option (list (string * string))
}.

(** The provider: the function [createModel], which closes over
    [client]. *)
Record IAzureAnthropicProvider : Set := {
  client : AnthropicFoundry
}.

(** [(modelId, options = {}) => new AzureAnthropicLanguageModel(modelId,
    client, options)]; the provider called as a function and its
    [languageModel] method are this one function. *)
Definition createModel (provider : IAzureAnthropicProvider) (id : string)
    (opts : option IAzureAnthropicModelOptions) : AzureAnthropicLanguageModel :=
  {| modelId := id;
     options := match opts with
                | Some o => o
                | None => {| opt_maxOutputTokens := None |}
                end |}.

Definition createAzureAnthropic (providerOptions : IAzureAnthropicProviderOptions)
  : outcome IAzureAnthropicProvider :=
  if negb (truthy (baseURL providerOptions)) then
    Throws (new_AzureAnthropicError validation "baseURL is required" None)
  else if negb (truthy (apiKey providerOptions)) then
    Throws (new_AzureAnthropicError validation "apiKey is required" None)
  else
    Returns {| client := {| client_apiKey := apiKey providerOptions;
                            client_baseURL := baseURL providerOptions;
                            client_defaultHeaders := headers providerOptions |} |}.

End Provider.

(* ===================================================================== *)
(** * Properties *)
(* ===================================================================== *)

Import Converters.

(** A runtime for closed examples: its parser knows the empty object
    only, and the examples are chosen so that nothing else is asked of
    it. *)
Definition exampleRuntime : JsRuntime :=
  {| JSON_parse := fun s =>
       if String.eqb s "{}" then inl (JObject [])
       else inr (mkSyntaxError "Unexpected token");
     JSON_stringify := fun _ => "null";
     base64 := fun _ => "" |}.

(** A part with one tag and no field, to build examples from. *)
Definition emptyPart (tag : string) : IV3ContentPart :=
  {| type := tag; text := None; data := None; mediaType := None;
     toolCallId := None; toolName := None; args := None;
     result := None; isError := None |}.

Definition textPartOf (s : string) : IV3ContentPart :=
  {| type := "text"; text := Some s; data := None; mediaType := None;
     toolCallId := None; toolName := None; args := None;
     result := None; isError := None |}.

(** ** Stop reasons *)

Lemma eqb_string_neq (a b : string) : a <> b -> String.eqb a b = false.
Proof. intros H. apply String.eqb_neq. exact H. Qed.

(** C6: [convertStopReason] is a function on nullable strings (total
    and deterministic as every function here): [end_turn] and
    [stop_sequence] give [stop], [max_tokens] gives [length],
    [tool_use] gives [tool-calls], and [null] and every other string
    give [other]. *)
Theorem convertStopReason_mapping :
  convertStopReason (Some "end_turn") = FinishStop /\
  convertStopReason (Some "stop_sequence") = FinishStop /\
  convertStopReason (Some "max_tokens") = FinishLength /\
  convertStopReason (Some "tool_use") = FinishToolCalls /\
  convertStopReason None = FinishOther /\
  (forall r : string,
      r ∉ ["end_turn"; "stop_sequence"; "max_tokens"; "tool_use"] ->
      convertStopReason (Some r) = FinishOther).
Proof.
  repeat split; try reflexivity.
  intros r Hr.
  repeat (apply not_elem_of_cons in Hr; destruct Hr as [? Hr]).
  unfold convertStopReason.
  rewrite !eqb_string_neq by assumption.
  reflexivity.
Qed.

Lemma convertStopReason_mapping_witness :
  ("pause_turn" ∉ ["end_turn"; "stop_sequence"; "max_tokens"; "tool_use"]) /\
  convertStopReason (Some "pause_turn") = FinishOther.
Proof.
  assert (H : "pause_turn" ∉ ["end_turn"; "stop_sequence"; "max_tokens"; "tool_use"]).
  { intros Hin. repeat (apply elem_of_cons in Hin; destruct Hin as [Hin | Hin];
      [discriminate Hin |]). inversion Hin. }
  split; [exact H |].
  exact (proj2 (proj2 (proj2 (proj2 (proj2 convertStopReason_mapping))))
           "pause_turn" H).
Defined.

(** ** Media types *)

Section MediaTypes.
Context `{rt : JsRuntime}.

Lemma validateImageMediaType_unsupported (m : string) :
  m ∉ SUPPORTED_IMAGE_TYPES ->
  validateImageMediaType m =
    Throws (new_AzureAnthropicError conversion
              ("Unsupported image media type: " ++ m ++
               ". Supported: image/jpeg, image/png, image/gif, image/webp") None).
Proof.
  intros Hm. unfold validateImageMediaType.
  rewrite bool_decide_eq_false_2 by exact Hm. reflexivity.
Qed.

(** C7 (as the code has it): a user file part whose media type is not
    one of the four supported image types makes the conversion throw
    an [AzureAnthropicError] with code [conversion] whose message names
    the rejected media type; its [field] is undefined, as no [throw] of
    the converters passes a field name. *)
Theorem unsupported_media_type_throws (p : IFilePart) :
  fp_mediaType p ∉ SUPPORTED_IMAGE_TYPES ->
  let e := {| provider := "azure-anthropic";
              code := conversion;
              message := "Unsupported image media type: " ++ fp_mediaType p ++
                         ". Supported: image/jpeg, image/png, image/gif, image/webp";
              field := None |} in
  convertContentPart (FilePart p) role_user = Throws e /\
  (forall part : IV3ContentPart,
      asContentPart part = Returns (FilePart p) ->
      convertPrompt [ {| role := user; content := Parts [part] |} ] = Throws e).
Proof.
  intros Hm e. split.
  - cbn. unfold convertFilePart.
    rewrite validateImageMediaType_unsupported by exact Hm. reflexivity.
  - intros part Hpart. unfold convertPrompt. cbn.
    rewrite Hpart. cbn. unfold convertFilePart.
    rewrite validateImageMediaType_unsupported by exact Hm. reflexivity.
Qed.

End MediaTypes.

(** The user file part of the specification's example: a bitmap. *)
Definition bmpPart : IFilePart :=
  {| fp_data := DataString "Qk0="; fp_mediaType := "image/bmp" |}.

Lemma bmp_unsupported : "image/bmp" ∉ SUPPORTED_IMAGE_TYPES.
Proof.
  intros Hin. unfold SUPPORTED_IMAGE_TYPES in Hin.
  repeat (apply elem_of_cons in Hin; destruct Hin as [Hin | Hin];
    [discriminate Hin |]).
  inversion Hin.
Qed.

Lemma unsupported_media_type_throws_witness :
  (fp_mediaType bmpPart ∉ SUPPORTED_IMAGE_TYPES) /\
  @convertContentPart exampleRuntime (FilePart bmpPart) role_user =
    Throws {| provider := "azure-anthropic";
              code := conversion;
              message := "Unsupported image media type: image/bmp. Supported: image/jpeg, image/png, image/gif, image/webp";
              field := None |}.
Proof.
  split; [exact bmp_unsupported |].
  exact (proj1 (@unsupported_media_type_throws exampleRuntime bmpPart bmp_unsupported)).
Defined.

(** C7, as stated, fails: the error thrown for [image/bmp] carries no
    field name. *)
Lemma unsupported_media_type_field_undefined :
  exists e : AzureAnthropicError,
    @convertContentPart exampleRuntime (FilePart bmpPart) role_user = Throws e /\
    field e = None /\
    field e <> Some "mediaType".
Proof.
  eexists. split; [reflexivity |]. split; [reflexivity | discriminate].
Qed.

(** ** Tool calls on the request side *)

Section ToolCalls.
Context `{rt : JsRuntime}.

(** C8: an assistant tool-call part whose arguments are a string is
    converted without raising: the result is a [tool_use] block whose
    input is the parsed value when [JSON.parse] succeeds and the empty
    object when it throws. *)
Theorem tool_call_string_args_never_raise (id name s : string) :
  let part := {| tc_toolCallId := id; tc_toolName := name; tc_args := ArgsString s |} in
  (exists input : JsValue,
      convertContentPart (ToolCallPart part) role_assistant =
        Returns (ToolUseBlock id name input)) /\
  (forall v : JsValue,
      JSON_parse s = inl v ->
      convertContentPart (ToolCallPart part) role_assistant =
        Returns (ToolUseBlock id name v)) /\
  (forall err : SyntaxError,
      JSON_parse s = inr err ->
      convertContentPart (ToolCallPart part) role_assistant =
        Returns (ToolUseBlock id name (JObject []))).
Proof.
  intros part. cbn. unfold convertToolCallPart. cbn.
  split; [eexists; reflexivity |].
  split; intros x Hx; rewrite Hx; reflexivity.
Qed.

End ToolCalls.

Lemma tool_call_string_args_never_raise_witness :
  @JSON_parse exampleRuntime "{loc" = inr (mkSyntaxError "Unexpected token") /\
  @convertContentPart exampleRuntime
    (ToolCallPart {| tc_toolCallId := "call_1"; tc_toolName := "get_weather";
                     tc_args := ArgsString "{loc" |}) role_assistant =
    Returns (ToolUseBlock "call_1" "get_weather" (JObject [])).
Proof.
  split; [reflexivity |].
  exact (proj2 (proj2 (@tool_call_string_args_never_raise exampleRuntime
                         "call_1" "get_weather" "{loc"))
           (mkSyntaxError "Unexpected token") eq_refl).
Defined.

(** ** Tool-result messages *)

(** A part the loop of [convertToolResultMessage] passes over: its tag
    is not [tool-result], or it has no [toolCallId]. *)
Definition skippedPart (part : IV3ContentPart) : Prop :=
  type part <> "tool-result" \/ toolCallId part = None.

Section ToolResults.
Context `{rt : JsRuntime}.

Lemma toolResultId_skipped (part : IV3ContentPart) :
  skippedPart part -> toolResultId part = None.
Proof.
  intros [Htag | Hid]; unfold toolResultId.
  - rewrite eqb_string_neq by exact Htag. reflexivity.
  - rewrite Hid. destruct (String.eqb _ _); reflexivity.
Qed.

Lemma pushToolResult_skipped content part :
  skippedPart part -> pushToolResult content part = content.
Proof.
  intros H. unfold pushToolResult. rewrite toolResultId_skipped by exact H.
  reflexivity.
Qed.

Lemma fold_pushToolResult_skipped parts content :
  Forall skippedPart parts -> fold_left pushToolResult parts content = content.
Proof.
  intros H. revert content.
  induction H as [| part parts Hpart _ IH]; intros content; cbn.
  - reflexivity.
  - rewrite pushToolResult_skipped by exact Hpart. apply IH.
Qed.

(** C10: in a tool message with a part list, a part whose tag is not
    [tool-result] or that has no tool-call id is passed over: the
    message converts as if the part were not there (no block for it,
    nothing thrown); when every part is passed over the result is a
    user message whose content is the empty block list, also through
    [convertPrompt]. *)
Theorem tool_message_skips_parts :
  (forall (before after : list IV3ContentPart) (part : IV3ContentPart),
      skippedPart part ->
      convertToolResultMessage {| role := tool; content := Parts (before ++ part :: after) |} =
      convertToolResultMessage {| role := tool; content := Parts (before ++ after) |}) /\
  (forall parts : list IV3ContentPart,
      Forall skippedPart parts ->
      convertToolResultMessage {| role := tool; content := Parts parts |} =
        {| m_role := role_user; m_content := CBlocks [] |} /\
      convertPrompt [ {| role := tool; content := Parts parts |} ] =
        Returns {| cp_system := None;
                   cp_messages := [ {| m_role := role_user; m_content := CBlocks [] |} ] |}).
Proof.
  split.
  - intros before after part Hpart. unfold convertToolResultMessage. cbn.
    rewrite !fold_left_app. cbn.
    rewrite pushToolResult_skipped by exact Hpart. reflexivity.
  - intros parts Hparts.
    assert (Hmsg : convertToolResultMessage {| role := tool; content := Parts parts |} =
                   {| m_role := role_user; m_content := CBlocks [] |}).
    { unfold convertToolResultMessage. cbn.
      rewrite fold_pushToolResult_skipped by exact Hparts. reflexivity. }
    split; [exact Hmsg |].
    unfold convertPrompt. cbn [convertMessages role mbind outcome_bind].
    rewrite Hmsg. reflexivity.
Qed.

End ToolResults.

Lemma tool_message_skips_parts_witness :
  Forall skippedPart [textPartOf "done"; emptyPart "tool-result"] /\
  @convertPrompt exampleRuntime
    [ {| role := tool;
         content := Parts [textPartOf "done"; emptyPart "tool-result"] |} ] =
    Returns {| cp_system := None;
               cp_messages := [ {| m_role := role_user; m_content := CBlocks [] |} ] |}.
Proof.
  assert (H : Forall skippedPart [textPartOf "done"; emptyPart "tool-result"]).
  { apply Forall_cons. split; [left; discriminate |].
    apply Forall_cons. split; [right; reflexivity | apply Forall_nil_2]. }
  split; [exact H |].
  exact (proj2 (proj2 (@tool_message_skips_parts exampleRuntime) _ H)).
Defined.

(** ** The stream processor *)

Import Stream.

(** The parts a run of events gives from a state, without the
    [stream-start] the loop of [processStream] puts in front. *)
Fixpoint processEvents {E : Type} (evs : list IAnthropicStreamEvent)
    (state : StreamState) : list (LanguageModelV3StreamPart E) * StreamState :=
  match evs with
  | [] => ([], state)
  | event :: rest =>
      let '(parts, state) := processStreamEvent event state in
      let '(more, state) := processEvents rest state in
      (parts ++ more, state)
  end.

(** The parts that end a stream. *)
Definition isTerminal {E : Type} (p : LanguageModelV3StreamPart E) : bool :=
  match p with
  | finish _ _ _ | error _ => true
  | _ => false
  end.

Definition isToolCall {E : Type} (p : LanguageModelV3StreamPart E) : bool :=
  match p with
  | tool_call _ _ _ => true
  | _ => false
  end.

(** What the loop has enqueued once [evs] are consumed. *)
Definition delivered {E : Type} (evs : list IAnthropicStreamEvent)
  : list (LanguageModelV3StreamPart E) :=
  fst (consume evs false initialState []).

Definition zeroUsage : Usage :=
  {| inputTokens_total := 0; inputTokens_noCache := None;
     inputTokens_cacheRead := None; inputTokens_cacheWrite := None;
     outputTokens_total := 0; outputTokens_text := 0;
     outputTokens_reasoning := None |}.

Section StreamProcessor.
Context {E : Type}.
Abbreviation part := (LanguageModelV3StreamPart E).

Lemma consume_processEvents (evs : list IAnthropicStreamEvent) (started : bool)
    (state : StreamState) (queue : list part) :
  consume evs started state queue =
    (queue ++ (if started then []
               else match evs with [] => [] | _ :: _ => [stream_start []] end)
           ++ fst (processEvents evs state),
     snd (processEvents (E:=E) evs state)).
Proof.
  revert started state queue.
  induction evs as [| event rest IH]; intros started state queue; cbn.
  - destruct started; cbn; rewrite app_nil_r; reflexivity.
  - destruct (processStreamEvent event state) as [parts state'] eqn:Hev.
    rewrite IH. cbn.
    destruct (processEvents rest state') as [more state''] eqn:Hrest. cbn.
    destruct started; cbn; rewrite <- ?app_assoc; reflexivity.
Qed.

Lemma processEvents_app (evs1 evs2 : list IAnthropicStreamEvent) (state : StreamState) :
  processEvents (E:=E) (evs1 ++ evs2) state =
    (fst (processEvents evs1 state)
       ++ fst (processEvents evs2 (snd (processEvents (E:=E) evs1 state))),
     snd (processEvents (E:=E) evs2 (snd (processEvents (E:=E) evs1 state)))).
Proof.
  revert state. induction evs1 as [| event rest IH]; intros state; cbn.
  - destruct (processEvents evs2 state); reflexivity.
  - destruct (processStreamEvent event state) as [parts state'] eqn:Hev.
    rewrite IH.
    destruct (processEvents rest state') as [more state''] eqn:Hrest. cbn.
    rewrite app_assoc. reflexivity.
Qed.

Lemma processStreamEvent_not_terminal (event : IAnthropicStreamEvent)
    (state : StreamState) :
  Forall (fun p : part => isTerminal p = false)
         (fst (processStreamEvent event state)).
Proof.
  destruct event as [n | index block | index delta | index | reason n | tag]; cbn.
  - destruct n; cbn; constructor.
  - destruct (String.eqb (cb_type block) "text"); cbn; repeat constructor.
  - destruct (d_text delta) as [t |]; [| cbn; constructor].
    destruct (String.eqb (d_type delta) "text_delta"); [| cbn; constructor].
    destruct (bool_decide (index ∈ textBlockIds state)); cbn; repeat constructor.
  - destruct (toolCalls state !! index) as [toolCall |];
      destruct (bool_decide (index ∈ textBlockIds state)); cbn; repeat constructor.
  - constructor.
  - constructor.
Qed.

Lemma processEvents_not_terminal (evs : list IAnthropicStreamEvent)
    (state : StreamState) :
  Forall (fun p : part => isTerminal p = false) (fst (processEvents evs state)).
Proof.
  revert state. induction evs as [| event rest IH]; intros state; cbn.
  - constructor.
  - pose proof (processStreamEvent_not_terminal event state) as Hev.
    destruct (processStreamEvent event state) as [parts state'].
    specialize (IH state').
    destruct (processEvents rest state') as [more state'']. cbn in *.
    apply Forall_app. split; assumption.
Qed.

Lemma delivered_not_terminal (evs : list IAnthropicStreamEvent) :
  Forall (fun p : part => isTerminal p = false) (delivered evs).
Proof.
  unfold delivered. rewrite consume_processEvents. cbn.
  apply Forall_app. split.
  - destruct evs; repeat constructor.
  - apply processEvents_not_terminal.
Qed.

Lemma delivered_app_prefix (evs1 evs2 : list IAnthropicStreamEvent) :
  delivered (E:=E) evs1 `prefix_of` delivered (evs1 ++ evs2).
Proof.
  unfold delivered. rewrite !consume_processEvents. cbn.
  rewrite processEvents_app. cbn.
  destruct evs1 as [| e1 r1]; cbn.
  - apply prefix_nil.
  - apply prefix_cons. apply prefix_app_r. reflexivity.
Qed.

(** C3: on a source that yields no event and completes, the stream
    holds exactly one part, the [finish] part, whose unified reason is
    the one mapped from the initial raw reason ["other"], with zero
    input and output tokens; no [stream-start] comes before it. *)
Theorem empty_stream_yields_lone_finish :
  processStream (E:=E) {| events := []; ending := Completed |} =
    {| chunks := [finish (convertStopReason (Some "other")) "other" zeroUsage];
       closed := true |} /\
  convertStopReason (Some "other") = FinishOther.
Proof. split; reflexivity. Qed.

(** C4: when the source throws after yielding some events, the stream
    holds the parts delivered for these events followed by exactly one
    [error] part with the fault, and is closed; the [finish] part a
    normal completion would have put there is absent, no [finish] or
    [error] is among the parts delivered before, and what was delivered
    after any prefix [before] of the events is still a prefix of the
    output. *)
Theorem source_fault_yields_error_not_finish
    (before after : list IAnthropicStreamEvent) (fault : E) :
  let evs := before ++ after in
  let failed := processStream {| events := evs; ending := Raised fault |} in
  let completed := processStream {| events := evs; ending := Completed (E:=E) |} in
  chunks failed = delivered evs ++ [error fault] /\
  closed failed = true /\
  Forall (fun p : part => isTerminal p = false) (delivered evs) /\
  (exists state, chunks completed = delivered evs ++ [finishPart state]) /\
  delivered (E:=E) before `prefix_of` chunks failed.
Proof.
  cbn zeta. unfold processStream. cbn [events ending].
  pose proof (delivered_not_terminal (before ++ after)) as Hterm.
  pose proof (delivered_app_prefix before after) as Hprefix.
  unfold delivered in *.
  destruct (consume (before ++ after) false initialState []) as [queue state].
  cbn [chunks closed fst] in *.
  split; [reflexivity |]. split; [reflexivity |].
  split; [exact Hterm |].
  split; [exists state; reflexivity |].
  apply prefix_app_r. exact Hprefix.
Qed.

End StreamProcessor.

(** *** Tool-call assembly *)

Lemma append_empty_r (s : string) : (s ++ "")%string = s.
Proof.
  induction s as [| c s IH]; [reflexivity |].
  unfold String.app in *. cbn. rewrite IH. reflexivity.
Qed.

Lemma append_assoc (a b c : string) :
  ((a ++ b) ++ c)%string = (a ++ (b ++ c))%string.
Proof.
  induction a as [| x a IH]; [reflexivity |].
  unfold String.app in *. cbn. rewrite IH. reflexivity.
Qed.

Lemma truthy_false_empty (s : string) : truthy s = false -> s = "".
Proof.
  unfold truthy. intros H. apply negb_false_iff in H.
  apply String.eqb_eq. exact H.
Qed.

(** The [partial_json] fragments of a run of deltas, joined in arrival
    order; a delta without the field adds nothing. *)
Definition fragmentsText (deltas : list StreamDelta) : string :=
  foldr String.append "" (omap d_partial_json deltas).

(** The events of one streamed tool call at [index]: the block start
    with its id and name, the argument deltas, the block stop. *)
Definition toolCallEvents (index : Z) (id name : string)
    (deltas : list StreamDelta) : list IAnthropicStreamEvent :=
  content_block_start index
    {| cb_type := "tool_use"; cb_id := Some id; cb_name := Some name |}
  :: map (content_block_delta index) deltas ++ [content_block_stop index].

(** [argsText || "{}"] *)
Definition argumentsOr (argsText : string) : string :=
  if truthy argsText then argsText else "{}".

Section ToolCallAssembly.
Context {E : Type}.

Lemma input_json_deltas_accumulate (index : Z) (deltas : list StreamDelta) :
  Forall (fun d => d_type d = "input_json_delta") deltas ->
  forall (state : StreamState) (toolCall : ToolCallAccumulator),
    toolCalls state !! index = Some toolCall ->
    let run := processEvents (E:=E) (map (content_block_delta index) deltas) state in
    fst run = [] /\
    toolCalls (snd run) !! index =
      Some {| acc_id := acc_id toolCall; acc_name := acc_name toolCall;
              argsText := (argsText toolCall ++ fragmentsText deltas)%string |} /\
    textBlockIds (snd run) = textBlockIds state /\
    inputTokens (snd run) = inputTokens state /\
    outputTokens (snd run) = outputTokens state /\
    finishReasonRaw (snd run) = finishReasonRaw state.
Proof.
  induction 1 as [| delta deltas Hdelta _ IH]; intros state toolCall Hcall; cbn zeta.
  - cbn. unfold fragmentsText. cbn. rewrite append_empty_r.
    destruct toolCall; cbn. repeat split; auto.
  - cbn [map processEvents].
    destruct (processStreamEvent (E:=E) (content_block_delta index delta) state)
      as [parts state'] eqn:Hev.
    cbn in Hev. rewrite Hdelta in Hev. cbn in Hev.
    assert (Hparts : parts = [] /\
              textBlockIds state' = textBlockIds state /\
              inputTokens state' = inputTokens state /\
              outputTokens state' = outputTokens state /\
              finishReasonRaw state' = finishReasonRaw state /\
              toolCalls state' !! index =
                Some {| acc_id := acc_id toolCall; acc_name := acc_name toolCall;
                        argsText := (argsText toolCall ++
                                     default "" (d_partial_json delta))%string |}).
    { destruct (d_text delta); destruct (d_partial_json delta) as [pj |];
        cbn in Hev |- *; try destruct (truthy pj) eqn:Hpj; try rewrite Hcall in Hev;
        inversion Hev; subst; cbn;
        rewrite ?lookup_insert_eq, ?append_empty_r;
        try (apply truthy_false_empty in Hpj; subst pj; rewrite append_empty_r);
        repeat split; try reflexivity; try (rewrite Hcall; destruct toolCall; reflexivity). }
    destruct Hparts as (-> & Hids & Hin & Hout & Hraw & Hcall').
    specialize (IH state' _ Hcall'). cbn zeta in IH.
    destruct (processEvents (E:=E) (map (content_block_delta index) deltas) state')
      as [more state''] eqn:Hrest.
    cbn [fst snd] in *. cbn [acc_id acc_name argsText] in IH.
    destruct IH as (-> & Hcall'' & Hids' & Hin' & Hout' & Hraw').
    split; [reflexivity |].
    split.
    { rewrite Hcall''. f_equal. f_equal. rewrite append_assoc. f_equal.
      unfold fragmentsText. cbn. destruct (d_partial_json delta); reflexivity. }
    repeat split; congruence.
Qed.

End ToolCallAssembly.

Section ToolCallEmission.
Context {E : Type}.

Lemma truthy_nonempty (s : string) : s <> "" -> truthy s = true.
Proof.
  intros H. unfold truthy. rewrite eqb_string_neq by exact H. reflexivity.
Qed.

Lemma tool_call_run (index : Z) (id name : string) (deltas : list StreamDelta)
    (state : StreamState) :
  id <> "" -> name <> "" ->
  Forall (fun d => d_type d = "input_json_delta") deltas ->
  let run := processEvents (E:=E) (toolCallEvents index id name deltas) state in
  fst run =
    (if bool_decide (index ∈ textBlockIds state)
     then [text_end (textId index)] else [])
    ++ [tool_call id name (argumentsOr (fragmentsText deltas))] /\
  toolCalls (snd run) !! index = None /\
  textBlockIds (snd run) = textBlockIds state /\
  inputTokens (snd run) = inputTokens state /\
  outputTokens (snd run) = outputTokens state /\
  finishReasonRaw (snd run) = finishReasonRaw state.
Proof.
  intros Hid Hname Hdeltas. cbn zeta. unfold toolCallEvents.
  cbn [processEvents].
  destruct (processStreamEvent (E:=E)
              (content_block_start index
                 {| cb_type := "tool_use"; cb_id := Some id; cb_name := Some name |})
              state) as [parts0 state0] eqn:Hstart.
  cbn in Hstart. rewrite (truthy_nonempty id Hid), (truthy_nonempty name Hname) in Hstart.
  cbn in Hstart. inversion Hstart; subst parts0 state0; clear Hstart.
  rewrite processEvents_app.
  set (state0 := {| toolCalls := _ |}).
  pose proof (input_json_deltas_accumulate (E:=E) index deltas Hdeltas state0
                {| acc_id := id; acc_name := name; argsText := "" |}) as Hrun.
  cbn zeta in Hrun.
  destruct Hrun as (Hparts & Hcall & Hids & Hin & Hout & Hraw).
  { subst state0. cbn. apply lookup_insert_eq. }
  destruct (processEvents (E:=E) (map (content_block_delta index) deltas) state0)
    as [parts1 state1].
  cbn [fst snd] in *. subst parts1. cbn [acc_id acc_name argsText] in Hcall.
  cbn [processEvents].
  destruct (processStreamEvent (E:=E) (content_block_stop index) state1)
    as [parts2 state2] eqn:Hstop.
  cbn in Hstop. rewrite Hcall in Hstop. inversion Hstop; subst parts2 state2; clear Hstop.
  cbn. rewrite app_nil_r. rewrite Hids.
  subst state0. cbn.
  split; [reflexivity |].
  split; [apply lookup_delete_eq |].
  cbn in Hin, Hout, Hraw. auto.
Qed.

(** C2: in a stream whose events open a [tool_use] block at an index
    with a non-empty id and name, go on with any run of
    [input_json_delta] events for that index and then stop the block,
    whatever came [before] and comes [after]: these events give exactly
    one [tool-call] part, with the opening id and name and, as its
    input, the [partial_json] fragments joined in arrival order, or
    ["{}"] when they add up to nothing (the only other part they can
    give is the [text-end] of an index that was also open as text);
    the accumulator is gone afterwards, and the stream is
    [stream-start], the parts of [before], these parts, the parts of
    [after], and [finish]. *)
Theorem streamed_tool_call_emits_one_tool_call
    (index : Z) (id name : string) (deltas : list StreamDelta)
    (before after : list IAnthropicStreamEvent) :
  id <> "" -> name <> "" ->
  Forall (fun d => d_type d = "input_json_delta") deltas ->
  let call : LanguageModelV3StreamPart E :=
    tool_call id name
      (if truthy (fragmentsText deltas) then fragmentsText deltas else "{}") in
  let earlier := processEvents (E:=E) before initialState in
  let run := processEvents (E:=E) (toolCallEvents index id name deltas) (snd earlier) in
  let later := processEvents (E:=E) after (snd run) in
  filter (fun p => isToolCall p = true) (fst run) = [call] /\
  Forall (fun p => p = call \/ p = text_end (textId index)) (fst run) /\
  toolCalls (snd run) !! index = None /\
  chunks (processStream
            {| events := before ++ toolCallEvents index id name deltas ++ after;
               ending := Completed |}) =
    stream_start [] :: fst earlier ++ fst run ++ fst later ++ [finishPart (snd later)].
Proof.
  intros Hid Hname Hdeltas. cbn zeta.
  set (state := snd (processEvents (E:=E) before initialState)).
  pose proof (tool_call_run index id name deltas state Hid Hname Hdeltas) as Hrun.
  cbn zeta in Hrun. destruct Hrun as (Hparts & Hgone & _).
  split; [| split; [| split]].
  - rewrite Hparts. fold (argumentsOr (fragmentsText deltas)).
    destruct (bool_decide (index ∈ textBlockIds state)); reflexivity.
  - rewrite Hparts. fold (argumentsOr (fragmentsText deltas)).
    destruct (bool_decide (index ∈ textBlockIds state)); cbn.
    + apply Forall_cons. split; [right; reflexivity |].
      apply Forall_cons. split; [left; reflexivity | apply Forall_nil_2].
    + apply Forall_cons. split; [left; reflexivity | apply Forall_nil_2].
  - exact Hgone.
  - unfold processStream. cbn [events ending].
    rewrite consume_processEvents. rewrite !processEvents_app. cbn [fst snd].
    fold state.
    destruct (before ++ toolCallEvents index id name deltas ++ after) eqn:Hevs.
    { destruct before; discriminate Hevs. }
    cbn. rewrite <- !app_assoc. reflexivity.
Qed.

End ToolCallEmission.

(** The two fragments of the specification's example, without the
    quotes of the JSON text. *)
Definition exampleDeltas : list StreamDelta :=
  [ {| d_type := "input_json_delta"; d_text := None; d_partial_json := Some "{loc" |};
    {| d_type := "input_json_delta"; d_text := None;
       d_partial_json := Some "ation:NYC}" |} ].

Lemma streamed_tool_call_emits_one_tool_call_witness :
  chunks (processStream (E:=string)
            {| events := toolCallEvents 0 "call_123" "get_weather" exampleDeltas;
               ending := Completed |}) =
    [stream_start []; tool_call "call_123" "get_weather" "{location:NYC}";
     finish FinishOther "other" zeroUsage].
Proof.
  assert (Hid : "call_123" <> "") by discriminate.
  assert (Hname : "get_weather" <> "") by discriminate.
  assert (Hdeltas : Forall (fun d => d_type d = "input_json_delta") exampleDeltas).
  { repeat constructor. }
  exact (proj2 (proj2 (proj2
    (@streamed_tool_call_emits_one_tool_call string 0 "call_123" "get_weather"
       exampleDeltas [] [] Hid Hname Hdeltas)))).
Defined.

(** ** Content simplification *)

Section ContentSimplification.
Context `{rt : JsRuntime}.

Lemma outcome_bind_Returns {A B : Type} (m : outcome A) (f : A -> outcome B) (b : B) :
  m ≫= f = Returns b -> exists a, m = Returns a /\ f a = Returns b.
Proof.
  destruct m as [a | e |]; cbn; intros H; [| discriminate H | discriminate H].
  exists a. split; [reflexivity | exact H].
Qed.

Lemma convertParts_pushes (parts : list IV3ContentPart) (role : AnthropicRole) :
  forall blocks result : list IAnthropicContentBlock,
    convertParts parts role blocks = Returns result ->
    exists pushed, result = blocks ++ pushed /\ List.length pushed = List.length parts.
Proof.
  induction parts as [| part rest IH]; intros blocks result Hrun; cbn in Hrun.
  - inversion Hrun; subst. exists []. rewrite app_nil_r. split; reflexivity.
  - apply outcome_bind_Returns in Hrun. destruct Hrun as (p & _ & Hrun).
    apply outcome_bind_Returns in Hrun. destruct Hrun as (converted & _ & Hrun).
    apply IH in Hrun. destruct Hrun as (pushed & -> & Hlen).
    exists (converted :: pushed). rewrite <- app_assoc. cbn.
    split; [reflexivity | rewrite Hlen; reflexivity].
Qed.

(** C5: when a user or assistant message with a part list converts,
    its parts give as many blocks as there are parts; if these are
    exactly one block and that block is a text block, the content is
    the bare text of that block, and in every other case (several
    blocks, no block, one block that is not text) the content is the
    block sequence itself, as long as the part list. *)
Theorem single_text_block_collapses
    (parts : list IV3ContentPart) (role : AnthropicRole) (c : AnthropicContent) :
  convertContentForRole (Parts parts) role = Returns c ->
  exists blocks : list IAnthropicContentBlock,
    convertParts parts role [] = Returns blocks /\
    List.length blocks = List.length parts /\
    (forall t : string, blocks = [TextBlock t] -> c = CString t) /\
    ((forall t : string, blocks <> [TextBlock t]) ->
     c = CBlocks blocks /\
     List.length (normalizeContent c) = List.length parts).
Proof.
  intros Hconv. cbn in Hconv.
  apply outcome_bind_Returns in Hconv. destruct Hconv as (blocks & Hrun & Hc).
  exists blocks. split; [exact Hrun |].
  apply convertParts_pushes in Hrun. destruct Hrun as (pushed & Hblocks & Hlen).
  cbn in Hblocks. subst pushed.
  split; [exact Hlen |].
  split.
  - intros t ->. inversion Hc; reflexivity.
  - intros Hnot.
    assert (Hcb : c = CBlocks blocks).
    { destruct blocks as [| [t | | |] [| b2 rest]]; inversion Hc; try reflexivity.
      exfalso. apply (Hnot t). reflexivity. }
    subst c. split; [reflexivity | exact Hlen].
Qed.

End ContentSimplification.

Lemma single_text_block_collapses_witness :
  exists blocks : list IAnthropicContentBlock,
    @convertParts exampleRuntime [textPartOf "Hello"] role_user [] = Returns blocks /\
    List.length blocks = 1 /\
    (forall t : string, blocks = [TextBlock t] -> CString "Hello" = CString t) /\
    ((forall t : string, blocks <> [TextBlock t]) ->
     CString "Hello" = CBlocks blocks /\
     List.length (normalizeContent (CString "Hello")) = 1).
Proof.
  exact (@single_text_block_collapses exampleRuntime
           [textPartOf "Hello"] role_user (CString "Hello") eq_refl).
Defined.

(** ** Merging of consecutive messages *)

(** No two neighbours of a message list have the same role. *)
Definition noAdjacentSameRole (ms : list IAnthropicMessage) : Prop :=
  forall (i : nat) (a b : IAnthropicMessage),
    ms !! i = Some a -> ms !! S i = Some b -> m_role a <> m_role b.

(** The contents of a run of messages, each normalized to blocks, in
    order. *)
Definition runContent (run : list IAnthropicMessage) : list IAnthropicContentBlock :=
  concat (map (fun m => normalizeContent (m_content m)) run).

(** [m] is what the merge makes of the run [run] of messages: the run
    is not empty and has the role of [m] throughout; a run of one
    message is that message, untouched; a longer run becomes one block
    sequence, the run's contents in order. *)
Definition mergedFrom (run : list IAnthropicMessage) (m : IAnthropicMessage) : Prop :=
  run <> [] /\
  Forall (fun x => m_role x = m_role m) run /\
  (forall x, run = [x] -> m = x) /\
  (2 <= List.length run -> m_content m = CBlocks (runContent run)) /\
  normalizeContent (m_content m) = runContent run.

Lemma noAdjacentSameRole_snoc (ms : list IAnthropicMessage) (x : IAnthropicMessage) :
  noAdjacentSameRole (ms ++ [x]) <->
  noAdjacentSameRole ms /\ (forall l, last ms = Some l -> m_role l <> m_role x).
Proof.
  split.
  - intros H. split.
    + intros i a b Ha Hb.
      apply (H i a b); apply lookup_app_l_Some; assumption.
    + intros l Hl. rewrite last_lookup in Hl.
      destruct ms as [| m0 ms']; [discriminate Hl |].
      cbn [List.length pred] in Hl.
      apply (H (List.length ms') l x).
      * apply lookup_app_l_Some. exact Hl.
      * change (S (List.length ms')) with (List.length (m0 :: ms')).
        rewrite lookup_app_r by lia. rewrite Nat.sub_diag. reflexivity.
  - intros [Hms Hlast] i a b Ha Hb.
    apply lookup_app_Some in Hb. destruct Hb as [Hb | [Hlen Hb]].
    + assert (Hi : i < List.length ms).
      { apply lookup_lt_Some in Hb. lia. }
      rewrite lookup_app_l in Ha by exact Hi.
      exact (Hms i a b Ha Hb).
    + destruct (S i - List.length ms) as [| k] eqn:Hk; [| destruct k; discriminate Hb].
      cbn in Hb. inversion Hb; subst b.
      assert (Hi : i = pred (List.length ms)) by lia.
      rewrite lookup_app_l in Ha by lia.
      apply Hlast. rewrite last_lookup. rewrite <- Hi. exact Ha.
Qed.

Lemma mergeStep_snoc (ms : list IAnthropicMessage) (l x : IAnthropicMessage) :
  mergeStep (ms ++ [l]) x =
    if decide (m_role l = m_role x)
    then ms ++ [ {| m_role := m_role x;
                    m_content := CBlocks (normalizeContent (m_content l) ++
                                          normalizeContent (m_content x)) |} ]
    else ms ++ [l; x].
Proof.
  unfold mergeStep. rewrite last_snoc.
  destruct (decide (m_role l = m_role x)) as [Heq | Hne].
  - rewrite length_app. cbn [List.length]. rewrite Nat.add_1_r. cbn [pred].
    rewrite insert_app_r_alt by lia. rewrite Nat.sub_diag. reflexivity.
  - rewrite <- app_assoc. reflexivity.
Qed.

Lemma runContent_snoc (run : list IAnthropicMessage) (x : IAnthropicMessage) :
  runContent (run ++ [x]) = runContent run ++ normalizeContent (m_content x).
Proof.
  unfold runContent. rewrite map_app, concat_app. cbn. rewrite app_nil_r. reflexivity.
Qed.

Lemma mergedFrom_singleton (x : IAnthropicMessage) : mergedFrom [x] x.
Proof.
  unfold mergedFrom. split; [discriminate |].
  split; [repeat constructor |].
  split; [intros y Hy; inversion Hy; reflexivity |].
  split; [cbn; lia |].
  unfold runContent. cbn. rewrite app_nil_r. reflexivity.
Qed.

Lemma mergedFrom_extend (run : list IAnthropicMessage) (l x : IAnthropicMessage) :
  mergedFrom run l -> m_role l = m_role x ->
  mergedFrom (run ++ [x])
    {| m_role := m_role x;
       m_content := CBlocks (normalizeContent (m_content l) ++
                             normalizeContent (m_content x)) |}.
Proof.
  intros (Hne & Hroles & _ & _ & Hnorm) Hrole. unfold mergedFrom. cbn.
  rewrite runContent_snoc, Hnorm.
  split; [intros H; apply app_eq_nil in H; destruct H; discriminate |].
  split.
  { apply Forall_app. split.
    - eapply Forall_impl; [exact Hroles |]. cbn. intros y Hy. congruence.
    - repeat constructor. }
  split.
  { intros y Hy. destruct run as [| r0 run']; [contradiction |].
    destruct run'; discriminate Hy. }
  split; reflexivity.
Qed.

(** The merge step by step: the messages fall into runs, one per
    merged message. *)
Lemma mergeConsecutiveMessages_runs (ms : list IAnthropicMessage) :
  noAdjacentSameRole (mergeConsecutiveMessages ms) /\
  exists runs : list (list IAnthropicMessage),
    concat runs = ms /\ Forall2 mergedFrom runs (mergeConsecutiveMessages ms).
Proof.
  unfold mergeConsecutiveMessages.
  induction ms as [| x ms IH] using rev_ind.
  - cbn. split.
    + intros i a b Ha. discriminate Ha.
    + exists []. split; [reflexivity | constructor].
  - rewrite fold_left_app. cbn [fold_left].
    destruct IH as (Hadj & runs & Hconcat & Hruns).
    destruct (fold_left mergeStep ms []) as [| m0 merged'] eqn:Hmerged
      using rev_ind.
    + apply Forall2_nil_inv_r in Hruns. subst runs. cbn in Hconcat. subst ms.
      cbn. split.
      * intros i a b Ha Hb. destruct i; discriminate Hb.
      * exists [[x]]. split; [reflexivity |].
        constructor; [apply mergedFrom_singleton | constructor].
    + clear IHmerged'.
      apply Forall2_app_inv_r in Hruns.
      destruct Hruns as (runs0 & runs1 & Hruns0 & Hruns1 & ->).
      apply Forall2_cons_inv_r in Hruns1.
      destruct Hruns1 as (run & rest & Hrun & Hrest & ->).
      apply Forall2_nil_inv_r in Hrest. subst rest.
      rewrite mergeStep_snoc.
      apply noAdjacentSameRole_snoc in Hadj. destruct Hadj as [Hadj Hlast].
      destruct (decide (m_role m0 = m_role x)) as [Heq | Hne].
      * split.
        { apply noAdjacentSameRole_snoc. split; [exact Hadj |].
          cbn. intros l Hl. rewrite <- Heq. apply Hlast. exact Hl. }
        exists (runs0 ++ [run ++ [x]]). split.
        { rewrite concat_app in *. cbn in *. rewrite app_nil_r in *.
          rewrite app_assoc. rewrite Hconcat. reflexivity. }
        apply Forall2_app; [exact Hruns0 |].
        constructor; [| constructor].
        apply mergedFrom_extend; assumption.
      * split.
        { change (merged' ++ [m0; x]) with (merged' ++ [m0] ++ [x]).
          rewrite app_assoc.
          apply noAdjacentSameRole_snoc. split.
          - apply noAdjacentSameRole_snoc. split; assumption.
          - intros l Hl. rewrite last_snoc in Hl. inversion Hl; subst l. exact Hne. }
        exists ((runs0 ++ [run]) ++ [[x]]). split.
        { rewrite concat_app. cbn. rewrite Hconcat. reflexivity. }
        change (merged' ++ [m0; x]) with (merged' ++ [m0] ++ [x]).
        rewrite app_assoc.
        apply Forall2_app.
        { apply Forall2_app; [exact Hruns0 |]. constructor; [exact Hrun | constructor]. }
        constructor; [apply mergedFrom_singleton | constructor].
Qed.

Section MergeInvariant.
Context `{rt : JsRuntime}.

(** C1: whenever [convertPrompt] returns, no two neighbours of its
    message list have the same role, and the messages the loop pushed
    before the merge fall, in order, into runs of one role, one run
    per merged message: the message merged from a run of two or more
    has as content the run's contents, each normalized to blocks (a
    bare string to one text block), concatenated in the original
    order; a run of one message is kept as it is. *)
Theorem convertPrompt_merges_same_role_runs
    (prompt : list IV3Message) (converted : IConvertedPrompt) :
  convertPrompt prompt = Returns converted ->
  noAdjacentSameRole (cp_messages converted) /\
  exists (premerge : list IAnthropicMessage) (runs : list (list IAnthropicMessage)),
    convertMessages prompt None [] = Returns (cp_system converted, premerge) /\
    concat runs = premerge /\
    Forall2 mergedFrom runs (cp_messages converted).
Proof.
  intros Hconv. unfold convertPrompt in Hconv.
  apply outcome_bind_Returns in Hconv. destruct Hconv as ([sys premerge] & Hloop & Hret).
  inversion Hret; subst converted; clear Hret. cbn [cp_messages cp_system fst snd].
  destruct (mergeConsecutiveMessages_runs premerge) as (Hadj & runs & Hconcat & Hruns).
  split; [exact Hadj |].
  exists premerge, runs. split; [exact Hloop |]. split; assumption.
Qed.

End MergeInvariant.

(** A conversation with two user turns in a row, then an assistant
    turn. *)
Definition examplePrompt : list IV3Message :=
  [ {| role := user; content := Str "Hello" |};
    {| role := user; content := Parts [textPartOf "How"; textPartOf "are you?"] |};
    {| role := assistant; content := Str "Fine." |} ].

Definition exampleConverted : IConvertedPrompt :=
  {| cp_system := None;
     cp_messages :=
       [ {| m_role := role_user;
            m_content := CBlocks [TextBlock "Hello"; TextBlock "How";
                                  TextBlock "are you?"] |};
         {| m_role := role_assistant; m_content := CString "Fine." |} ] |}.

Lemma convertPrompt_merges_same_role_runs_witness :
  @convertPrompt exampleRuntime examplePrompt = Returns exampleConverted /\
  noAdjacentSameRole (cp_messages exampleConverted).
Proof.
  assert (H : @convertPrompt exampleRuntime examplePrompt = Returns exampleConverted)
    by reflexivity.
  split; [exact H |].
  exact (proj1 (@convertPrompt_merges_same_role_runs exampleRuntime
                  examplePrompt exampleConverted H)).
Defined.

(** ** The request body *)

Import Model.

Section RequestBodyFields.
Context `{rt : JsRuntime}.

(** The system text the loop of [convertPrompt] ends with is the one
    it started with or the text of a system message of the prompt. *)
Lemma convertMessages_system (prompt : list IV3Message) :
  forall (sys0 : option string) (ms0 : list IAnthropicMessage)
         (sys : option string) (ms : list IAnthropicMessage),
    convertMessages prompt sys0 ms0 = Returns (sys, ms) ->
    sys = sys0 \/
    exists msg, msg ∈ prompt /\ role msg = Converters.system /\
                sys = Some (extractSystemContent msg).
Proof.
  induction prompt as [| message rest IH]; intros sys0 ms0 sys ms Hrun; cbn in Hrun.
  - inversion Hrun; subst. left. reflexivity.
  - assert (Hrest : forall sys1 ms1,
              convertMessages rest sys1 ms1 = Returns (sys, ms) ->
              sys = sys1 \/
              exists msg, msg ∈ message :: rest /\ role msg = Converters.system /\
                          sys = Some (extractSystemContent msg)).
    { intros sys1 ms1 H1. apply IH in H1. destruct H1 as [-> | (msg & Hin & Hrole & ->)].
      - left. reflexivity.
      - right. exists msg. split; [apply list_elem_of_further; exact Hin |].
        split; [exact Hrole | reflexivity]. }
    destruct (role message) eqn:Hrole.
    + apply Hrest in Hrun. destruct Hrun as [-> | Hrun]; [| right; exact Hrun].
      right. exists message. split; [apply list_elem_of_here |].
      split; [exact Hrole | reflexivity].
    + apply outcome_bind_Returns in Hrun. destruct Hrun as (c & _ & Hrun).
      apply Hrest in Hrun. exact Hrun.
    + apply outcome_bind_Returns in Hrun. destruct Hrun as (c & _ & Hrun).
      apply Hrest in Hrun. exact Hrun.
    + apply Hrest in Hrun. exact Hrun.
Qed.

(** C9: in the body [buildRequestBody] returns, each optional field is
    there only when the caller supplied the matching input, and what it
    holds is that input (converted, for tools and tool choice), never a
    filler: [stream] only when streaming, and then [true]; [system]
    only from a system message of the prompt, and never empty;
    [temperature], [top_p], [top_k] and [stop_sequences] only as
    given; [tools] only from supplied tools, and never an empty list;
    [tool_choice] only from a supplied choice. *)
Theorem request_body_optional_fields
    (this : AzureAnthropicLanguageModel) (opts : LanguageModelV3CallOptions)
    (isStreaming : bool) (body : RequestBody) :
  buildRequestBody this opts isStreaming = Returns body ->
  (forall v, stream body = Some v -> isStreaming = true /\ v = true) /\
  (forall s, Model.system body = Some s ->
     s <> "" /\
     exists msg, msg ∈ prompt opts /\ role msg = Converters.system /\
                 extractSystemContent msg = s) /\
  (forall t, body_temperature body = Some t -> temperature opts = Some t) /\
  (forall p, top_p body = Some p -> topP opts = Some p) /\
  (forall k, top_k body = Some k -> topK opts = Some k) /\
  (forall l, stop_sequences body = Some l -> stopSequences opts = Some l) /\
  (forall ts, body_tools body = Some ts ->
     ts <> [] /\
     exists supplied, tools opts = Some supplied /\
                      ts = convertTools (functionToolsOf supplied)) /\
  (forall c, tool_choice body = Some c ->
     exists choice, toolChoice opts = Some choice /\ c = convertToolChoice choice).
Proof.
  intros Hbody. unfold buildRequestBody in Hbody.
  apply outcome_bind_Returns in Hbody. destruct Hbody as (converted & Hconv & Hbody).
  inversion Hbody; subst body; clear Hbody. cbn.
  unfold convertPrompt in Hconv.
  apply outcome_bind_Returns in Hconv. destruct Hconv as ([sys ms] & Hloop & Hret).
  inversion Hret; subst converted; clear Hret. cbn.
  split.
  { intros v Hv. destruct isStreaming; [| discriminate Hv].
    inversion Hv. split; reflexivity. }
  split.
  { intros s Hs.
    destruct sys as [s0 |]; [| discriminate Hs].
    destruct (truthy s0) eqn:Hs0; [| discriminate Hs].
    inversion Hs; subst s0. split.
    - intros ->. discriminate Hs0.
    - apply convertMessages_system in Hloop.
      destruct Hloop as [Hnone | (msg & Hin & Hrole & Hsys)]; [discriminate Hnone |].
      exists msg. split; [exact Hin |]. split; [exact Hrole |]. congruence. }
  split; [auto |]. split; [auto |]. split; [auto |]. split; [auto |].
  split.
  { intros ts Hts.
    destruct (tools opts) as [supplied |]; cbn in Hts; [| discriminate Hts].
    destruct (functionToolsOf supplied) as [| f fs] eqn:Hfts; cbn in Hts;
      [discriminate Hts |].
    inversion Hts. split; [discriminate |].
    exists supplied. split; [reflexivity |]. rewrite Hfts. reflexivity. }
  intros c Hc.
  destruct (toolChoice opts) as [choice |]; cbn in Hc; [| discriminate Hc].
  exists choice. split; [reflexivity |]. inversion Hc. reflexivity.
Qed.

End RequestBodyFields.

Definition exampleModel : AzureAnthropicLanguageModel :=
  {| modelId := "claude-sonnet-4-5-20251001";
     options := {| opt_maxOutputTokens := None |} |}.

Definition exampleTool : LanguageModelV3FunctionTool :=
  {| ft_name := "getWeather";
     ft_description := Some "Get weather for a location";
     ft_inputSchema := JObject [("type", JString "object")] |}.

(** A call with a system message, a temperature of 0.7, one stop
    sequence, a function tool beside a provider tool, and a required
    tool choice; no top-p, no top-k. *)
Definition exampleOptions : LanguageModelV3CallOptions :=
  {| prompt := [ {| role := Converters.system; content := Str "Be brief." |};
                 {| role := user; content := Str "Hello" |} ];
     tools := Some [FunctionTool exampleTool; ProviderTool "provider-defined"];
     toolChoice := Some ChoiceRequired;
     maxOutputTokens := None;
     temperature := Some (QArith_base.Qmake 7 10);
     topP := None;
     topK := None;
     stopSequences := Some ["END"] |}.

Definition exampleBody : RequestBody :=
  {| model := "claude-sonnet-4-5-20251001";
     max_tokens := QArith_base.Qmake 4096 1;
     messages := [ {| m_role := role_user; m_content := CString "Hello" |} ];
     stream := Some true;
     Model.system := Some "Be brief.";
     body_temperature := Some (QArith_base.Qmake 7 10);
     top_p := None;
     top_k := None;
     stop_sequences := Some ["END"];
     body_tools :=
       Some [ {| at_name := "getWeather";
                 at_input_schema := JObject [("type", JString "object")];
                 at_description := Some "Get weather for a location" |} ];
     tool_choice := Some {| choice_type := tc_any; choice_name := None |} |}.

Lemma request_body_optional_fields_witness :
  @buildRequestBody exampleRuntime exampleModel exampleOptions true =
    Returns exampleBody /\
  (forall v, stream exampleBody = Some v -> true = true /\ v = true).
Proof.
  assert (H : @buildRequestBody exampleRuntime exampleModel exampleOptions true =
              Returns exampleBody) by reflexivity.
  split; [exact H |].
  exact (proj1 (@request_body_optional_fields exampleRuntime
                  exampleModel exampleOptions true exampleBody H)).
Defined.

(** A stop-sequence list the caller supplied is passed on as it is,
    an empty one too; a system text that is empty is left out. *)
Example supplied_stop_sequences_pass_through :
  let opts := {| prompt := [ {| role := Converters.system; content := Str "" |} ];
                 tools := Some []; toolChoice := None; maxOutputTokens := None;
                 temperature := None; topP := None; topK := None;
                 stopSequences := Some [] |} in
  exists body,
    @buildRequestBody exampleRuntime exampleModel opts false = Returns body /\
    stop_sequences body = Some [] /\
    Model.system body = None /\
    body_tools body = None /\
    stream body = None.
Proof. eexists. repeat split. Qed.

(* ===================================================================== *)
(** * Further properties of the converters *)
(* ===================================================================== *)

(** ** The merge as an operation on message lists *)

Lemma runContent_app (a b : list IAnthropicMessage) :
  runContent (a ++ b) = runContent a ++ runContent b.
Proof. unfold runContent. rewrite map_app, concat_app. reflexivity. Qed.

Lemma mergeConsecutiveMessages_alternating (ms : list IAnthropicMessage) :
  noAdjacentSameRole ms -> mergeConsecutiveMessages ms = ms.
Proof.
  unfold mergeConsecutiveMessages.
  induction ms as [| x ms IH] using rev_ind; intros Hadj; [reflexivity |].
  apply noAdjacentSameRole_snoc in Hadj. destruct Hadj as [Hms Hlast].
  rewrite fold_left_app. cbn [fold_left]. rewrite (IH Hms).
  destruct ms as [| l ms' _] using rev_ind; [reflexivity |].
  rewrite mergeStep_snoc.
  destruct (decide (m_role l = m_role x)) as [Heq | Hne].
  - exfalso. apply (Hlast l); [apply last_snoc | exact Heq].
  - rewrite <- app_assoc. reflexivity.
Qed.

(** X1: merging is idempotent, and a list in which no two neighbours
    share a role is left as it is (the very same messages, bare
    strings not turned into blocks). *)
Theorem mergeConsecutiveMessages_idempotent (ms : list IAnthropicMessage) :
  mergeConsecutiveMessages (mergeConsecutiveMessages ms) = mergeConsecutiveMessages ms /\
  (noAdjacentSameRole ms -> mergeConsecutiveMessages ms = ms).
Proof.
  split.
  - apply mergeConsecutiveMessages_alternating.
    apply (proj1 (mergeConsecutiveMessages_runs ms)).
  - apply mergeConsecutiveMessages_alternating.
Qed.

Definition alternatingMessages : list IAnthropicMessage :=
  [ {| m_role := role_user; m_content := CString "Hi" |};
    {| m_role := role_assistant; m_content := CString "Hello" |};
    {| m_role := role_user; m_content := CBlocks [TextBlock "Bye"] |} ].

Lemma alternatingMessages_alternate : noAdjacentSameRole alternatingMessages.
Proof.
  intros i a b Ha Hb.
  destruct i as [| [| [| i]]]; cbn in Ha, Hb; try discriminate Hb;
    inversion Ha; inversion Hb; subst; discriminate.
Qed.

Lemma mergeConsecutiveMessages_idempotent_witness :
  mergeConsecutiveMessages alternatingMessages = alternatingMessages.
Proof.
  exact (proj2 (mergeConsecutiveMessages_idempotent alternatingMessages)
           alternatingMessages_alternate).
Defined.

Lemma mergedFrom_runs_content (runs : list (list IAnthropicMessage))
    (merged : list IAnthropicMessage) :
  Forall2 mergedFrom runs merged ->
  runContent merged = runContent (concat runs) /\
  List.length merged <= List.length (concat runs) /\
  (merged = [] <-> concat runs = []).
Proof.
  induction 1 as [| run m runs merged Hrun _ IH].
  - cbn. split; [reflexivity |]. split; [lia | tauto].
  - destruct IH as (IHc & IHl & _).
    destruct Hrun as (Hne & _ & _ & _ & Hnorm).
    cbn [concat]. rewrite runContent_app. rewrite <- IHc.
    split.
    { unfold runContent at 1. cbn. rewrite Hnorm. reflexivity. }
    split.
    { rewrite length_app. cbn. destruct run; [contradiction | cbn; lia]. }
    split; [discriminate |].
    intros Hnil. apply app_eq_nil in Hnil. destruct Hnil; contradiction.
Qed.

(** X2: the merge loses and reorders nothing: the blocks of all
    messages, each content normalized, read in order, are the same
    before and after; the merged list is never longer, and it is empty
    only for the empty list. *)
Theorem mergeConsecutiveMessages_keeps_blocks (ms : list IAnthropicMessage) :
  runContent (mergeConsecutiveMessages ms) = runContent ms /\
  List.length (mergeConsecutiveMessages ms) <= List.length ms /\
  (mergeConsecutiveMessages ms = [] <-> ms = []).
Proof.
  destruct (mergeConsecutiveMessages_runs ms) as (_ & runs & Hconcat & Hruns).
  apply mergedFrom_runs_content in Hruns. rewrite Hconcat in Hruns. exact Hruns.
Qed.

(** ** Which blocks a role can hold *)

(** The blocks the converters put under a role: text anywhere, images
    and tool results under user, tool uses under assistant. *)
Definition blockFitsRole (r : AnthropicRole) (b : IAnthropicContentBlock) : Prop :=
  match b, r with
  | TextBlock _, _ => True
  | ImageBlock _ _, role_user => True
  | ToolResultBlock _ _ _, role_user => True
  | ToolUseBlock _ _ _, role_assistant => True
  | _, _ => False
  end.

Definition messageFitsRole (m : IAnthropicMessage) : Prop :=
  Forall (blockFitsRole (m_role m)) (normalizeContent (m_content m)).


Section RoleGating.
Context `{rt : JsRuntime}.

Lemma convertContentPart_fits (p : ContentPart) (r : AnthropicRole)
    (b : IAnthropicContentBlock) :
  convertContentPart p r = Returns b -> blockFitsRole r b.
Proof.
  destruct p as [tp | fp | tc | tag]; destruct r; cbn; intros H;
    try discriminate H; try (inversion H; subst; exact I).
  unfold convertFilePart in H.
  apply outcome_bind_Returns in H. destruct H as (m & _ & H).
  inversion H; subst. exact I.
Qed.

Lemma convertParts_fit (parts : list IV3ContentPart) (r : AnthropicRole) :
  forall blocks result,
    Forall (blockFitsRole r) blocks ->
    convertParts parts r blocks = Returns result ->
    Forall (blockFitsRole r) result.
Proof.
  induction parts as [| part rest IH]; intros blocks result Hblocks Hrun; cbn in Hrun.
  - inversion Hrun; subst. exact Hblocks.
  - apply outcome_bind_Returns in Hrun. destruct Hrun as (p & _ & Hrun).
    apply outcome_bind_Returns in Hrun. destruct Hrun as (b & Hb & Hrun).
    apply (IH _ _ (proj2 (Forall_app _ _ _)
                     (conj Hblocks (Forall_cons_2 _ _ _ (convertContentPart_fits _ _ _ Hb)
                                                  (Forall_nil_2 _)))) Hrun).
Qed.

Lemma convertContentForRole_fits (c : V3Content) (r : AnthropicRole)
    (v : AnthropicContent) :
  convertContentForRole c r = Returns v ->
  Forall (blockFitsRole r) (normalizeContent v).
Proof.
  destruct c as [s | parts]; cbn; intros H.
  - inversion H; subst. cbn. repeat constructor.
  - apply outcome_bind_Returns in H. destruct H as (blocks & Hrun & H).
    apply convertParts_fit in Hrun; [| constructor].
    destruct blocks as [| [t | | |] [| b2 rest]]; inversion H; subst; cbn;
      exact Hrun.
Qed.

Lemma pushToolResult_fits (parts : list IV3ContentPart) :
  forall blocks,
    Forall (blockFitsRole role_user) blocks ->
    Forall (blockFitsRole role_user) (fold_left pushToolResult parts blocks).
Proof.
  induction parts as [| part rest IH]; intros blocks Hblocks; cbn; [exact Hblocks |].
  apply IH. unfold pushToolResult.
  destruct (toolResultId part); [| exact Hblocks].
  apply Forall_app. split; [exact Hblocks |]. repeat constructor.
Qed.

Lemma convertToolResultMessage_fits (message : IV3Message) :
  messageFitsRole (convertToolResultMessage message).
Proof.
  unfold messageFitsRole, convertToolResultMessage.
  destruct (content message) as [s | parts]; cbn.
  - repeat constructor.
  - apply pushToolResult_fits. constructor.
Qed.

Lemma convertMessages_fit (prompt : list IV3Message) :
  forall sys0 ms0 sys ms,
    Forall messageFitsRole ms0 ->
    convertMessages prompt sys0 ms0 = Returns (sys, ms) ->
    Forall messageFitsRole ms.
Proof.
  induction prompt as [| message rest IH]; intros sys0 ms0 sys ms Hms0 Hrun;
    cbn in Hrun.
  - inversion Hrun; subst. exact Hms0.
  - destruct (role message).
    + eapply IH; [exact Hms0 | exact Hrun].
    + apply outcome_bind_Returns in Hrun. destruct Hrun as (c & Hc & Hrun).
      eapply IH; [| exact Hrun].
      apply Forall_app. split; [exact Hms0 |].
      constructor; [| constructor].
      apply convertContentForRole_fits in Hc. exact Hc.
    + apply outcome_bind_Returns in Hrun. destruct Hrun as (c & Hc & Hrun).
      eapply IH; [| exact Hrun].
      apply Forall_app. split; [exact Hms0 |].
      constructor; [| constructor].
      apply convertContentForRole_fits in Hc. exact Hc.
    + eapply IH; [| exact Hrun].
      apply Forall_app. split; [exact Hms0 |].
      constructor; [apply convertToolResultMessage_fits | constructor].
Qed.

Lemma runContent_fits (r : AnthropicRole) (run : list IAnthropicMessage) :
  Forall (fun x => m_role x = r) run ->
  Forall messageFitsRole run ->
  Forall (blockFitsRole r) (runContent run).
Proof.
  unfold runContent.
  induction run as [| x run IH]; cbn; intros Hroles Hrun; [constructor |].
  apply Forall_cons in Hroles. destruct Hroles as [Hx Hroles].
  apply Forall_cons in Hrun. destruct Hrun as [Hfx Hrun].
  apply Forall_app. split.
  - unfold messageFitsRole in Hfx. rewrite <- Hx. exact Hfx.
  - apply IH; assumption.
Qed.

Lemma mergedFrom_fits (run : list IAnthropicMessage) (m : IAnthropicMessage) :
  mergedFrom run m -> Forall messageFitsRole run -> messageFitsRole m.
Proof.
  intros (_ & Hroles & _ & _ & Hnorm) Hrun. unfold messageFitsRole.
  rewrite Hnorm. apply runContent_fits; assumption.
Qed.

(** X3: in what [convertPrompt] returns, also after the merge, a user
    message holds only text, image and tool-result blocks and an
    assistant message only text and tool-use blocks: no image or tool
    result ever sits under assistant, no tool use under user. *)
Theorem converted_blocks_fit_their_role
    (prompt : list IV3Message) (converted : IConvertedPrompt) :
  convertPrompt prompt = Returns converted ->
  Forall messageFitsRole (cp_messages converted).
Proof.
  intros Hconv. unfold convertPrompt in Hconv.
  apply outcome_bind_Returns in Hconv. destruct Hconv as ([sys premerge] & Hloop & Hret).
  inversion Hret; subst converted; clear Hret. cbn [cp_messages snd].
  apply convertMessages_fit in Hloop; [| constructor].
  destruct (mergeConsecutiveMessages_runs premerge) as (_ & runs & Hconcat & Hruns).
  subst premerge.
  revert Hloop. induction Hruns as [| run m runs merged Hrun _ IH]; intros Hfit.
  - constructor.
  - cbn in Hfit. apply Forall_app in Hfit. destruct Hfit as [Hfr Hfrest].
    constructor; [exact (mergedFrom_fits run m Hrun Hfr) | exact (IH Hfrest)].
Qed.

End RoleGating.

Lemma converted_blocks_fit_their_role_witness :
  Forall messageFitsRole (cp_messages exampleConverted).
Proof.
  exact (@converted_blocks_fit_their_role exampleRuntime examplePrompt
           exampleConverted eq_refl).
Defined.

(** ** System messages *)

Definition isSystem (m : IV3Message) : bool :=
  match role m with
  | Converters.system => true
  | _ => false
  end.

Section SystemMessages.
Context `{rt : JsRuntime}.

Lemma convertMessages_system_and_count (prompt : list IV3Message) :
  forall sys0 ms0 sys ms,
    convertMessages prompt sys0 ms0 = Returns (sys, ms) ->
    sys = match last (List.filter isSystem prompt) with
          | Some m => Some (extractSystemContent m)
          | None => sys0
          end /\
    List.length ms =
      List.length ms0 + List.length (List.filter (fun m => negb (isSystem m)) prompt).
Proof.
  induction prompt as [| message rest IH]; intros sys0 ms0 sys ms Hrun; cbn in Hrun.
  - inversion Hrun; subst. cbn. split; [reflexivity | lia].
  - cbn [List.filter].
    destruct (role message) eqn:Hrole;
      (assert (Hs : isSystem message = match role message with
                                       | Converters.system => true
                                       | _ => false
                                       end) by reflexivity;
       rewrite Hrole in Hs; rewrite Hs; cbn [negb]).
    + apply IH in Hrun. destruct Hrun as [Hsys Hlen]. split; [| exact Hlen].
      rewrite last_cons. rewrite Hsys.
      destruct (last (List.filter isSystem rest)); reflexivity.
    + apply outcome_bind_Returns in Hrun. destruct Hrun as (c & _ & Hrun).
      apply IH in Hrun. destruct Hrun as [Hsys Hlen]. split; [exact Hsys |].
      rewrite Hlen, length_app. cbn. lia.
    + apply outcome_bind_Returns in Hrun. destruct Hrun as (c & _ & Hrun).
      apply IH in Hrun. destruct Hrun as [Hsys Hlen]. split; [exact Hsys |].
      rewrite Hlen, length_app. cbn. lia.
    + apply IH in Hrun. destruct Hrun as [Hsys Hlen]. split; [exact Hsys |].
      rewrite Hlen, length_app. cbn. lia.
Qed.

(** X4: the system text of a converted prompt is the text of the last
    system message of the prompt, whatever stands before or after it,
    and is undefined exactly when the prompt has no system message;
    earlier system messages are overwritten, not joined. *)
Theorem last_system_message_wins
    (prompt : list IV3Message) (converted : IConvertedPrompt) :
  convertPrompt prompt = Returns converted ->
  cp_system converted = extractSystemContent <$> last (List.filter isSystem prompt).
Proof.
  intros Hconv. unfold convertPrompt in Hconv.
  apply outcome_bind_Returns in Hconv. destruct Hconv as ([sys ms] & Hloop & Hret).
  inversion Hret; subst converted; clear Hret. cbn [cp_system fst].
  apply convertMessages_system_and_count in Hloop. destruct Hloop as [-> _].
  destruct (last (List.filter isSystem prompt)); reflexivity.
Qed.

(** X5: system messages become no vendor message: a converted prompt
    has at most as many messages as the prompt has messages that are
    not system messages, and it has none exactly when every message of
    the prompt is a system message (or the prompt is empty). *)
Theorem system_messages_yield_no_message
    (prompt : list IV3Message) (converted : IConvertedPrompt) :
  convertPrompt prompt = Returns converted ->
  List.length (cp_messages converted) <=
    List.length (List.filter (fun m => negb (isSystem m)) prompt) /\
  (cp_messages converted = [] <-> Forall (fun m => role m = Converters.system) prompt).
Proof.
  intros Hconv. unfold convertPrompt in Hconv.
  apply outcome_bind_Returns in Hconv. destruct Hconv as ([sys ms] & Hloop & Hret).
  inversion Hret; subst converted; clear Hret. cbn [cp_messages snd].
  apply convertMessages_system_and_count in Hloop. destruct Hloop as [_ Hlen].
  cbn in Hlen.
  destruct (mergeConsecutiveMessages_keeps_blocks ms) as (_ & Hle & Hnil).
  split; [lia |].
  rewrite Hnil. split.
  - intros ->. cbn in Hlen. clear -Hlen.
    induction prompt as [| m rest IH]; [constructor |].
    cbn [List.filter] in Hlen. unfold isSystem in Hlen at 1.
    destruct (role m) eqn:Hrole; cbn in Hlen; try discriminate Hlen.
    constructor; [exact Hrole | exact (IH Hlen)].
  - intros Hall. apply length_zero_iff_nil. rewrite Hlen. clear -Hall.
    induction Hall as [| m rest Hm _ IH]; [reflexivity |].
    cbn. unfold isSystem at 1. rewrite Hm. cbn. exact IH.
Qed.

End SystemMessages.

(** Two system messages around a user turn. *)
Definition twoSystemPrompt : list IV3Message :=
  [ {| role := Converters.system; content := Str "Be brief." |};
    {| role := user; content := Str "Hello" |};
    {| role := Converters.system;
       content := Parts [textPartOf "Be kind."; emptyPart "file"; textPartOf "Be exact."] |} ].

Definition twoSystemConverted : IConvertedPrompt :=
  {| cp_system := Some ("Be kind." ++ LF ++ "Be exact.")%string;
     cp_messages := [ {| m_role := role_user; m_content := CString "Hello" |} ] |}.

Lemma last_system_message_wins_witness :
  cp_system twoSystemConverted =
    extractSystemContent <$> last (List.filter isSystem twoSystemPrompt).
Proof.
  exact (@last_system_message_wins exampleRuntime twoSystemPrompt
           twoSystemConverted eq_refl).
Defined.

Lemma system_messages_yield_no_message_witness :
  List.length (cp_messages twoSystemConverted) <= 1 /\
  (cp_messages twoSystemConverted = [] <->
   Forall (fun m => role m = Converters.system) twoSystemPrompt).
Proof.
  exact (@system_messages_yield_no_message exampleRuntime twoSystemPrompt
           twoSystemConverted eq_refl).
Defined.

(** ** What the converters throw *)


Section ConversionErrors.
Context `{rt : JsRuntime}.





Lemma convertParts_app (good rest : list IV3ContentPart) (r : AnthropicRole) :
  forall blocks,
    convertParts (good ++ rest) r blocks =
      convertParts good r blocks ≫= convertParts rest r.
Proof.
  induction good as [| part good IH]; intros blocks; cbn; [reflexivity |].
  destruct (asContentPart part) as [p | e |]; cbn; [| reflexivity | reflexivity].
  destruct (convertContentPart p r) as [b | e |]; cbn; [| reflexivity | reflexivity].
  apply IH.
Qed.

(** X7: the parts of a message are converted in order and the first
    one that fails decides: when the parts before it convert and it
    throws, the whole content throws that error, whatever follows. *)
Theorem first_failing_part_decides
    (good rest : list IV3ContentPart) (bad : IV3ContentPart) (p : ContentPart)
    (r : AnthropicRole) (blocks : list IAnthropicContentBlock)
    (e : AzureAnthropicError) :
  convertParts good r [] = Returns blocks ->
  asContentPart bad = Returns p ->
  convertContentPart p r = Throws e ->
  convertContentForRole (Parts (good ++ bad :: rest)) r = Throws e.
Proof.
  intros Hgood Hbad Hthrow. cbn.
  rewrite convertParts_app, Hgood. cbn. rewrite Hbad. cbn. rewrite Hthrow.
  reflexivity.
Qed.

End ConversionErrors.


Lemma first_failing_part_decides_witness :
  @convertContentForRole exampleRuntime
    (Parts ([textPartOf "Look"] ++ emptyPart "video" :: [textPartOf "never reached"]))
    role_user =
    Throws (new_AzureAnthropicError conversion
              "Unsupported user content part type: video" None).
Proof.
  exact (@first_failing_part_decides exampleRuntime
           [textPartOf "Look"] [textPartOf "never reached"] (emptyPart "video")
           (OtherPart "video") role_user [TextBlock "Look"] _
           eq_refl eq_refl eq_refl).
Defined.

(** ** File parts *)

Lemma index_comma_here (s : string) : String.index 0 "," (String "," s) = Some 0.
Proof. cbn. destruct s; reflexivity. Qed.

Lemma index_comma_skip (c : ascii) (s : string) :
  c <> ","%char ->
  String.index 0 "," (String c s) =
    match String.index 0 "," s with Some n => Some (S n) | None => None end.
Proof.
  intros Hc. cbn [String.index String.prefix].
  destruct (ascii_dec "," c) as [Heq | _]; [congruence | reflexivity].
Qed.

Lemma index_comma_first (a b : string) :
  String.index 0 "," a = None ->
  String.index 0 "," (a ++ String "," b) = Some (String.length a).
Proof.
  unfold String.app.
  induction a as [| c a IH]; intros Hnone.
  - cbn [append String.length]. apply index_comma_here.
  - destruct (ascii_dec c ",") as [-> | Hc].
    + rewrite index_comma_here in Hnone. discriminate Hnone.
    + rewrite index_comma_skip in Hnone by exact Hc.
      cbn [append String.length]. rewrite index_comma_skip by exact Hc.
      destruct (String.index 0 "," a); [discriminate Hnone |].
      rewrite IH by reflexivity. reflexivity.
Qed.

Lemma substring_all (s : string) : String.substring 0 (String.length s) s = s.
Proof. induction s as [| c s IH]; cbn; [reflexivity | rewrite IH; reflexivity]. Qed.

Lemma substring_after (a b : string) :
  String.substring (String.length a + 1)
    (String.length (a ++ String "," b) - (String.length a + 1))
    (a ++ String "," b) = b.
Proof.
  unfold String.app.
  induction a as [| c a IH]; cbn [append String.length].
  - cbn. rewrite Nat.sub_0_r. apply substring_all.
  - cbn [Nat.add String.substring]. exact IH.
Qed.

Lemma prefix_data (rest : string) : String.prefix "data:" ("data:" ++ rest) = true.
Proof. unfold String.app. cbn. destruct rest; reflexivity. Qed.

Section FileParts.
Context `{rt : JsRuntime}.

(** X8: a string payload written as a data URL, [data:] then anything
    without a comma, a comma, and the payload, is cut down to the
    payload after that first comma; a string that does not start with
    [data:] is taken as it is, and so is a [data:] string without any
    comma. *)
Theorem data_url_payload_is_extracted :
  (forall meta payload : string,
      String.index 0 "," meta = None ->
      extractBase64Data (DataString ("data:" ++ meta ++ String "," payload)) = payload) /\
  (forall s : string,
      String.prefix "data:" s = false -> extractBase64Data (DataString s) = s) /\
  (forall s : string,
      String.index 0 "," s = None -> extractBase64Data (DataString s) = s).
Proof.
  split; [| split].
  - intros meta payload Hmeta. unfold extractBase64Data.
    rewrite prefix_data.
    assert (Ha : String.index 0 "," ("data:" ++ meta) = None).
    { unfold String.app. cbn [append].
      rewrite !index_comma_skip by discriminate. rewrite Hmeta. reflexivity. }
    assert (Happ : ("data:" ++ meta ++ String "," payload)%string =
                   (("data:" ++ meta) ++ String "," payload)%string).
    { rewrite append_assoc. reflexivity. }
    rewrite Happ. rewrite (index_comma_first _ _ Ha).
    apply substring_after.
  - intros s Hs. unfold extractBase64Data. rewrite Hs. reflexivity.
  - intros s Hs. unfold extractBase64Data. rewrite Hs.
    destruct (String.prefix "data:" s); reflexivity.
Qed.

(** X9: a user file part converts exactly when its media type is one
    of the four supported image types, and then to an image block with
    that media type unchanged and the payload as [extractBase64Data]
    gives it; no image block ever carries another media type. *)
Theorem file_part_converts_iff_supported (p : IFilePart) :
  (fp_mediaType p ∈ SUPPORTED_IMAGE_TYPES ->
   convertContentPart (FilePart p) role_user =
     Returns (ImageBlock (fp_mediaType p) (extractBase64Data (fp_data p)))) /\
  (forall b : IAnthropicContentBlock,
      convertContentPart (FilePart p) role_user = Returns b ->
      fp_mediaType p ∈ SUPPORTED_IMAGE_TYPES /\
      b = ImageBlock (fp_mediaType p) (extractBase64Data (fp_data p))).
Proof.
  cbn. unfold convertFilePart, validateImageMediaType.
  destruct (bool_decide (fp_mediaType p ∈ SUPPORTED_IMAGE_TYPES)) eqn:Hdec; cbn.
  - apply bool_decide_eq_true_1 in Hdec. split; [reflexivity |].
    intros b Hb. inversion Hb. split; [exact Hdec | reflexivity].
  - apply bool_decide_eq_false_1 in Hdec. split; [contradiction |].
    intros b Hb. discriminate Hb.
Qed.

End FileParts.

Lemma data_url_payload_is_extracted_witness :
  @extractBase64Data exampleRuntime
    (DataString ("data:" ++ "image/jpeg;base64" ++ String "," "/9j/4AAQ")) = "/9j/4AAQ".
Proof.
  exact (proj1 (@data_url_payload_is_extracted exampleRuntime)
           "image/jpeg;base64" "/9j/4AAQ" eq_refl).
Defined.

Lemma png_supported : "image/png" ∈ SUPPORTED_IMAGE_TYPES.
Proof. unfold SUPPORTED_IMAGE_TYPES. apply elem_of_cons. right. apply elem_of_cons. left. reflexivity. Qed.

Lemma file_part_converts_iff_supported_witness :
  @convertContentPart exampleRuntime
    (FilePart {| fp_data := DataString "iVBORw0KG"; fp_mediaType := "image/png" |})
    role_user = Returns (ImageBlock "image/png" "iVBORw0KG").
Proof.
  exact (proj1 (@file_part_converts_iff_supported exampleRuntime
                  {| fp_data := DataString "iVBORw0KG"; fp_mediaType := "image/png" |})
           png_supported).
Defined.

(** ** Tool results, tool uses, tool choice *)

(** A part the loop of [convertToolResultMessage] turns into a block:
    tagged [tool-result], with a tool-call id that is not empty. *)
Definition resultPart (part : IV3ContentPart) : Prop :=
  type part = "tool-result" /\
  exists id, toolCallId part = Some id /\ id <> "".

Section ToolResultBlocks.
Context `{rt : JsRuntime}.

Lemma fold_pushToolResult (parts : list IV3ContentPart) :
  forall blocks,
    fold_left pushToolResult parts blocks =
      blocks ++ omap (fun part => (fun id => toolResultBlock id part) <$> toolResultId part)
                     parts.
Proof.
  induction parts as [| part rest IH]; intros blocks; cbn.
  - rewrite app_nil_r. reflexivity.
  - rewrite IH. unfold pushToolResult.
    destruct (toolResultId part); cbn; [rewrite <- app_assoc |]; reflexivity.
Qed.

Lemma toolResultId_resultPart (part : IV3ContentPart) :
  resultPart part -> exists id, toolResultId part = Some id /\ toolCallId part = Some id.
Proof.
  intros (Htag & id & Hid & Hne). exists id. unfold toolResultId.
  rewrite Htag, Hid. cbn. unfold truthy. rewrite eqb_string_neq by exact Hne.
  split; reflexivity.
Qed.

(** X10: a tool message converts to one user message whose blocks are
    the tool results of its qualifying parts, in the order of the
    parts; each block answers the tool-call id of its part and passes
    the part's error flag on.  When every part is a tool result with a
    non-empty id there is exactly one block per part. *)
Theorem tool_results_in_part_order (parts : list IV3ContentPart) :
  let message := convertToolResultMessage {| role := tool; content := Parts parts |} in
  let blocks := normalizeContent (m_content message) in
  m_role message = role_user /\
  blocks = omap (fun part => (fun id => ToolResultBlock id
                                 match result part with
                                 | Some (JString s) => Some s
                                 | Some v => Some (JSON_stringify v)
                                 | None => None
                                 end (isError part)) <$> toolResultId part) parts /\
  List.length blocks <= List.length parts /\
  (Forall resultPart parts ->
   Forall2 (fun part b => exists c, b = ToolResultBlock (default "" (toolCallId part)) c
                                                        (isError part))
           parts blocks).
Proof.
  cbn zeta. unfold convertToolResultMessage. cbn [content m_role m_content normalizeContent].
  rewrite fold_pushToolResult. cbn [app].
  split; [reflexivity |]. split; [reflexivity |].
  split.
  - induction parts as [| part rest IH]; cbn; [lia |].
    destruct (toolResultId part); cbn; lia.
  - intros Hall. induction Hall as [| part rest Hpart _ IH]; cbn; [constructor |].
    destruct (toolResultId_resultPart part Hpart) as (id & -> & Hid). cbn.
    constructor; [| exact IH].
    rewrite Hid. cbn. unfold toolResultBlock. eexists. reflexivity.
Qed.

End ToolResultBlocks.

Definition resultPartOf (id : string) (r : JsValue) (err : option bool) : IV3ContentPart :=
  {| type := "tool-result"; text := None; data := None; mediaType := None;
     toolCallId := Some id; toolName := None; args := None;
     result := Some r; isError := err |}.

Lemma tool_results_in_part_order_witness :
  Forall2 (fun part b => exists c, b = ToolResultBlock (default "" (toolCallId part)) c
                                                       (isError part))
    [resultPartOf "call_1" (JString "22 degrees") None;
     resultPartOf "call_2" (JString "failed") (Some true)]
    (normalizeContent (m_content (@convertToolResultMessage exampleRuntime
       {| role := tool;
          content := Parts [resultPartOf "call_1" (JString "22 degrees") None;
                            resultPartOf "call_2" (JString "failed") (Some true)] |}))).
Proof.
  assert (H : Forall resultPart
                [resultPartOf "call_1" (JString "22 degrees") None;
                 resultPartOf "call_2" (JString "failed") (Some true)]).
  { apply Forall_cons. split.
    { split; [reflexivity |]. exists "call_1". split; [reflexivity | discriminate]. }
    apply Forall_cons. split; [| apply Forall_nil_2].
    split; [reflexivity |]. exists "call_2". split; [reflexivity | discriminate]. }
  exact (proj2 (proj2 (proj2 (@tool_results_in_part_order exampleRuntime _))) H).
Defined.

Import Response.

(** A unified content item handed back as a part of an assistant
    message: the same fields, the arguments still a string. *)
Definition contentAsPart (c : IV3Content) : ContentPart :=
  match c with
  | V3Text t => TextPart {| tp_text := t |}
  | V3ToolCall i n a =>
      ToolCallPart {| tc_toolCallId := i; tc_toolName := n; tc_args := ArgsString a |}
  end.

(** [JSON.parse] gives back the input of a tool-use block that
    [JSON.stringify] wrote. *)
Definition parsesBack `{rt : JsRuntime} (block : IAnthropicResponseContentBlock) : Prop :=
  match block with
  | ResponseText _ => True
  | ResponseToolUse _ _ v => JSON_parse (JSON_stringify v) = inl v
  end.

Section ResponseRoundTrip.
Context `{rt : JsRuntime}.

(** X11: the response side keeps the blocks one for one and in order,
    and the request side undoes it: each unified item [convertContent]
    makes, handed back as an assistant part, converts to the very
    block it came from, provided [JSON.parse] reads back what
    [JSON.stringify] wrote for the tool inputs. *)
Theorem response_content_round_trip (content : list IAnthropicResponseContentBlock) :
  Forall parsesBack content ->
  List.length (convertContent content) = List.length content /\
  Forall2 (fun block c =>
             convertContentPart (contentAsPart c) role_assistant =
               Returns (asContentBlock block))
          content (convertContent content).
Proof.
  intros Hall. unfold convertContent. split; [apply length_map |].
  induction Hall as [| block rest Hblock _ IH]; cbn; [constructor |].
  constructor; [| exact IH].
  destruct block as [t | i n v]; cbn; [reflexivity |].
  unfold convertToolCallPart. cbn. cbn in Hblock. rewrite Hblock. reflexivity.
Qed.

End ResponseRoundTrip.

(** A runtime for the round trip: its [JSON.stringify] writes the
    empty object, which its parser reads back. *)
Definition emptyObjectRuntime : JsRuntime :=
  {| JSON_parse := fun s =>
       if String.eqb s "{}" then inl (JObject [])
       else inr (mkSyntaxError "Unexpected token");
     JSON_stringify := fun _ => "{}";
     base64 := fun _ => "" |}.

Lemma response_content_round_trip_witness :
  Forall2 (fun block c =>
             @convertContentPart emptyObjectRuntime (contentAsPart c) role_assistant =
               Returns (asContentBlock block))
    [ResponseText "Checking."; ResponseToolUse "call_1" "get_time" (JObject [])]
    (@convertContent emptyObjectRuntime
       [ResponseText "Checking."; ResponseToolUse "call_1" "get_time" (JObject [])]).
Proof.
  assert (H : Forall (@parsesBack emptyObjectRuntime)
                [ResponseText "Checking.";
                 ResponseToolUse "call_1" "get_time" (JObject [])]).
  { apply Forall_cons. split; [exact I |].
    apply Forall_cons. split; [reflexivity | apply Forall_nil_2]. }
  exact (proj2 (@response_content_round_trip emptyObjectRuntime _ H)).
Defined.

(** X12: the vendor tool choice carries a name exactly for the choice
    of one tool, and then that tool's name with type [tool];
    [required] is the only choice rendered as [any]; [none] is
    rendered exactly as [auto] is. *)
Theorem tool_choice_rendering (choice : LanguageModelV3ToolChoice) :
  (forall n, choice_name (convertToolChoice choice) = Some n <-> choice = ChoiceTool n) /\
  (choice_type (convertToolChoice choice) = tc_tool <-> exists n, choice = ChoiceTool n) /\
  (choice_type (convertToolChoice choice) = tc_any <-> choice = ChoiceRequired) /\
  convertToolChoice ChoiceNone = convertToolChoice ChoiceAuto.
Proof.
  destruct choice as [| | | m]; cbn; repeat split;
    try discriminate; try reflexivity;
    try (intros [n H]; discriminate H);
    try (intros H; inversion H; reflexivity);
    try (intros _; exists m; reflexivity).
Qed.

(* ===================================================================== *)
(** * Further properties of the stream processor *)
(* ===================================================================== *)

(** The parts an event can give: text starts, deltas and ends, and
    tool calls. *)
Definition isContentPart {E : Type} (p : LanguageModelV3StreamPart E) : bool :=
  match p with
  | text_start _ | text_delta _ _ | text_end _ | tool_call _ _ _ => true
  | _ => false
  end.

(** The last value a field took over the events, if it was ever
    present. *)
Definition lastInputTokens (evs : list IAnthropicStreamEvent) : option Z :=
  last (omap (fun e => match e with message_start n => n | _ => None end) evs).

Definition lastOutputTokens (evs : list IAnthropicStreamEvent) : option Z :=
  last (omap (fun e => match e with message_delta _ n => n | _ => None end) evs).

Definition lastStopReason (evs : list IAnthropicStreamEvent) : option string :=
  last (omap (fun e => match e with
                       | message_delta (Some (Some r)) _ => Some r
                       | _ => None
                       end) evs).

Section StreamShape.
Context {E : Type}.

Lemma processStreamEvent_content (event : IAnthropicStreamEvent) (state : StreamState) :
  Forall (fun p : LanguageModelV3StreamPart E => isContentPart p = true)
         (fst (processStreamEvent event state)).
Proof.
  destruct event as [n | index block | index delta | index | reason n | tag]; cbn.
  - destruct n; cbn; constructor.
  - destruct (String.eqb (cb_type block) "text"); cbn; repeat constructor.
  - destruct (d_text delta) as [t |]; [| cbn; constructor].
    destruct (String.eqb (d_type delta) "text_delta"); [| cbn; constructor].
    destruct (bool_decide (index ∈ textBlockIds state)); cbn; repeat constructor.
  - destruct (toolCalls state !! index) as [toolCall |];
      destruct (bool_decide (index ∈ textBlockIds state)); cbn; repeat constructor.
  - constructor.
  - constructor.
Qed.

Lemma processEvents_content (evs : list IAnthropicStreamEvent) (state : StreamState) :
  Forall (fun p : LanguageModelV3StreamPart E => isContentPart p = true)
         (fst (processEvents evs state)).
Proof.
  revert state. induction evs as [| event rest IH]; intros state; cbn; [constructor |].
  pose proof (processStreamEvent_content event state) as Hev.
  destruct (processStreamEvent event state) as [parts state'].
  specialize (IH state').
  destruct (processEvents rest state') as [more state'']. cbn in *.
  apply Forall_app. split; assumption.
Qed.

(** X13: every stream has the same shape: when the source yields at
    least one event, one [stream-start] in front, and none when it
    yields no event; then the parts of the events, which are text and
    tool-call parts only; then exactly one closing part, [finish] on
    normal completion and [error] on a fault; and the controller is
    closed. *)
Theorem stream_shape (source : AsyncIterable E) :
  exists (body : list (LanguageModelV3StreamPart E)) (state : StreamState),
    processEvents (events source) initialState = (body, state) /\
    chunks (processStream source) =
      match events source with [] => [] | _ :: _ => [stream_start []] end
      ++ body
      ++ [match ending source with
          | Completed => finishPart state
          | Raised fault => error fault
          end] /\
    Forall (fun p => isContentPart p = true) body /\
    closed (processStream source) = true.
Proof.
  destruct source as [evs fin]. cbn [events ending].
  destruct (processEvents (E:=E) evs initialState) as [body state] eqn:Hrun.
  exists body, state. split; [reflexivity |].
  pose proof (processEvents_content evs initialState) as Hbody. rewrite Hrun in Hbody.
  unfold processStream. cbn [events ending].
  rewrite consume_processEvents, Hrun. cbn [fst snd].
  destruct fin; cbn [chunks closed]; rewrite <- ?app_assoc;
    (split; [reflexivity | split; [exact Hbody | reflexivity]]).
Qed.

Lemma processStreamEvent_counters (event : IAnthropicStreamEvent) (state : StreamState) :
  let state' := snd (processStreamEvent (E:=E) event state) in
  inputTokens state' = default (inputTokens state) (lastInputTokens [event]) /\
  outputTokens state' = default (outputTokens state) (lastOutputTokens [event]) /\
  finishReasonRaw state' = default (finishReasonRaw state) (lastStopReason [event]).
Proof.
  destruct event as [n | index block | index delta | index | reason n | tag]; cbn.
  - destruct n; cbn; auto.
  - destruct (String.eqb (cb_type block) "text"); cbn; auto.
  - destruct (d_text delta) as [t |];
      [destruct (String.eqb (d_type delta) "text_delta");
         [destruct (bool_decide (index ∈ textBlockIds state)) |] |];
      cbn; auto.
  - destruct (toolCalls state !! index); cbn; auto.
  - destruct reason as [[r |] |]; destruct n; cbn; auto.
  - auto.
Qed.

Lemma last_omap_cons {A B : Type} (f : A -> option B) (x : A) (l : list A) (d : B) :
  default d (last (omap f (x :: l))) =
    default (default d (last (omap f [x]))) (last (omap f l)).
Proof.
  cbn. destruct (f x) as [y |]; cbn; [| reflexivity].
  rewrite last_cons. destruct (last (omap f l)); reflexivity.
Qed.

Lemma processEvents_counters (evs : list IAnthropicStreamEvent) :
  forall state : StreamState,
    let state' := snd (processEvents (E:=E) evs state) in
    inputTokens state' = default (inputTokens state) (lastInputTokens evs) /\
    outputTokens state' = default (outputTokens state) (lastOutputTokens evs) /\
    finishReasonRaw state' = default (finishReasonRaw state) (lastStopReason evs).
Proof.
  induction evs as [| event rest IH]; intros state; cbn zeta.
  - cbn. auto.
  - cbn [processEvents].
    pose proof (processStreamEvent_counters event state) as Hev. cbn zeta in Hev.
    destruct (processStreamEvent (E:=E) event state) as [parts state1].
    specialize (IH state1). cbn zeta in IH.
    destruct (processEvents (E:=E) rest state1) as [more state2].
    cbn [snd] in *.
    destruct Hev as (Hi & Ho & Hr). destruct IH as (Hi' & Ho' & Hr').
    unfold lastInputTokens, lastOutputTokens, lastStopReason in *.
    rewrite 3!(last_omap_cons _ event rest). rewrite Hi', Ho', Hr', Hi, Ho, Hr. auto.
Qed.

(** X14: on normal completion the last part is [finish], and it
    reports what was seen last: as raw reason the last [stop_reason]
    that was a string ([null] and absent ones are passed over), or
    ["other"] when there was none, with the unified reason mapped from
    it; as input total the last [input_tokens] of a [message_start]; as
    output total, and as text total, the last [output_tokens] of a
    [message_delta]; zero where none was given. *)
Theorem finish_reports_last_seen (evs : list IAnthropicStreamEvent) :
  let raw := default "other" (lastStopReason evs) in
  last (chunks (processStream (E:=E) {| events := evs; ending := Completed |})) =
    Some (finish (convertStopReason (Some raw)) raw
            {| inputTokens_total := default 0%Z (lastInputTokens evs);
               inputTokens_noCache := None;
               inputTokens_cacheRead := None;
               inputTokens_cacheWrite := None;
               outputTokens_total := default 0%Z (lastOutputTokens evs);
               outputTokens_text := default 0%Z (lastOutputTokens evs);
               outputTokens_reasoning := None |}).
Proof.
  cbn zeta. unfold processStream. cbn [events ending].
  rewrite consume_processEvents. cbn [chunks fst snd].
  rewrite last_snoc. unfold finishPart.
  pose proof (processEvents_counters evs initialState) as H. cbn zeta in H.
  destruct H as (-> & -> & ->). reflexivity.
Qed.

End StreamShape.

(** X15: the synthetic text ids of different block indices differ. *)
Theorem textId_injective (i j : Z) : textId i = textId j -> i = j.
Proof.
  unfold textId, String.app. cbn [append]. intros H.
  injection H as H. apply (inj pretty) in H. exact H.
Qed.

Lemma textId_injective_witness : 7%Z = 7%Z.
Proof. exact (textId_injective 7 7 eq_refl). Defined.

(** ** Text parts and their starts *)

(** [p] is a delta or the end of the text with id [id]. *)
Definition usesTextId {E : Type} (id : string) (p : LanguageModelV3StreamPart E) : Prop :=
  p = text_end id \/ exists d, p = text_delta id d.

(** In [out], every delta and end of a text comes after a start of
    that text. *)
Definition startsFirst {E : Type} (out : list (LanguageModelV3StreamPart E)) : Prop :=
  forall (k : nat) (p : LanguageModelV3StreamPart E) (id : string),
    out !! k = Some p -> usesTextId id p -> text_start id ∈ take k out.

(** Every index recorded as an open text block had its start sent. *)
Definition openedWereStarted {E : Type} (state : StreamState)
    (out : list (LanguageModelV3StreamPart E)) : Prop :=
  forall i : Z, i ∈ textBlockIds state -> text_start (textId i) ∈ out.

Section TextStarts.
Context {E : Type}.
Implicit Types (out parts : list (LanguageModelV3StreamPart E)).

Lemma startsFirst_app out parts :
  startsFirst out ->
  (forall j p id, parts !! j = Some p -> usesTextId id p ->
                  text_start id ∈ out \/ text_start id ∈ take j parts) ->
  startsFirst (out ++ parts).
Proof.
  intros Hout Hparts k p id Hk Hu.
  rewrite take_app. apply elem_of_app.
  apply lookup_app_Some in Hk. destruct Hk as [Hk | [Hlen Hk]].
  - left. exact (Hout k p id Hk Hu).
  - rewrite take_ge by exact Hlen.
    destruct (Hparts _ _ _ Hk Hu) as [H | H]; [left | right]; exact H.
Qed.

Lemma processStreamEvent_starts (event : IAnthropicStreamEvent) (state : StreamState) out :
  openedWereStarted state out ->
  let step := processStreamEvent (E:=E) event state in
  openedWereStarted (snd step) (out ++ fst step) /\
  (forall j p id, fst step !! j = Some p -> usesTextId id p ->
                  text_start id ∈ out \/ text_start id ∈ take j (fst step)).
Proof.
  intros Hinv. cbn zeta.
  assert (Hkeep : forall state' parts,
            textBlockIds state' = textBlockIds state ->
            openedWereStarted state' (out ++ parts)).
  { intros state' parts Hids i Hi. apply elem_of_app. left.
    rewrite Hids in Hi. exact (Hinv i Hi). }
  assert (Hnone : forall j p id, ([] : list (LanguageModelV3StreamPart E)) !! j = Some p ->
                    usesTextId id p ->
                    text_start id ∈ out \/ text_start id ∈ take j ([] : list (LanguageModelV3StreamPart E))).
  { intros j p id Hj. discriminate Hj. }
  assert (Hadd : forall index parts,
            text_start (textId index) ∈ parts ->
            forall i, i ∈ ({[ index ]} ∪ textBlockIds state : gset Z) ->
                      text_start (textId i) ∈ out ++ parts).
  { intros index parts Hin i Hi. apply elem_of_app.
    apply elem_of_union in Hi. destruct Hi as [Hi | Hi].
    - apply elem_of_singleton in Hi. subst i. right. exact Hin.
    - left. exact (Hinv i Hi). }
  destruct event as [n | index block | index delta | index | reason n | tag].
  - cbn. destruct n; cbn; (split; [apply Hkeep; reflexivity | exact Hnone]).
  - cbn. destruct (String.eqb (cb_type block) "text"); cbn; split.
    + intros i Hi. cbn [textBlockIds] in Hi.
      apply (Hadd index); [apply list_elem_of_here | exact Hi].
    + intros j p id Hj [-> | [d ->]]; destruct j as [| j]; cbn in Hj; discriminate Hj.
    + apply Hkeep; reflexivity.
    + exact Hnone.
  - cbn. destruct (d_text delta) as [t |]; [| cbn; split; [apply Hkeep; reflexivity | exact Hnone]].
    destruct (String.eqb (d_type delta) "text_delta");
      [| cbn; split; [apply Hkeep; reflexivity | exact Hnone]].
    destruct (bool_decide (index ∈ textBlockIds state)) eqn:Hdec; cbn; split.
    + apply Hkeep; reflexivity.
    + apply bool_decide_eq_true_1 in Hdec.
      intros j p id Hj Hu. left.
      destruct j as [| j]; cbn in Hj; [| discriminate Hj].
      inversion Hj; subst p.
      destruct Hu as [Hu | [d Hu]]; inversion Hu; subst. exact (Hinv index Hdec).
    + intros i Hi. cbn [textBlockIds] in Hi.
      apply (Hadd index); [apply list_elem_of_here | exact Hi].
    + intros j p id Hj Hu. right.
      destruct j as [| [| j]]; cbn in Hj; try discriminate Hj; inversion Hj; subst p.
      * destruct Hu as [Hu | [d Hu]]; discriminate Hu.
      * destruct Hu as [Hu | [d Hu]]; inversion Hu; subst. cbn. apply list_elem_of_here.
  - cbn.
    assert (Hend : forall more j p id,
              ((if bool_decide (index ∈ textBlockIds state)
                then [text_end (textId index)] else []) ++ more) !! j = Some p ->
              Forall (fun q : LanguageModelV3StreamPart E => isToolCall q = true) more ->
              usesTextId id p ->
              text_start id ∈ out).
    { intros more j p id Hj Hmore Hu.
      destruct (bool_decide (index ∈ textBlockIds state)) eqn:Hdec.
      - apply bool_decide_eq_true_1 in Hdec.
        destruct j as [| j]; cbn in Hj.
        + inversion Hj; subst p.
          destruct Hu as [Hu | [d Hu]]; inversion Hu; subst. exact (Hinv index Hdec).
        + apply list_elem_of_lookup_2 in Hj.
          rewrite Forall_forall in Hmore. specialize (Hmore _ Hj).
          destruct Hu as [-> | [d ->]]; discriminate Hmore.
      - cbn in Hj. apply list_elem_of_lookup_2 in Hj.
        rewrite Forall_forall in Hmore. specialize (Hmore _ Hj).
        destruct Hu as [-> | [d ->]]; discriminate Hmore. }
    destruct (toolCalls state !! index) as [toolCall |]; cbn; split.
    + apply Hkeep; reflexivity.
    + intros j p id Hj Hu. left.
      eapply Hend; [exact Hj | repeat constructor | exact Hu].
    + apply Hkeep; reflexivity.
    + intros j p id Hj Hu. left.
      rewrite <- (app_nil_r (if bool_decide (index ∈ textBlockIds state)
                             then [text_end (textId index)] else [])) in Hj.
      eapply Hend; [exact Hj | constructor | exact Hu].
  - cbn. split; [apply Hkeep; reflexivity | exact Hnone].
  - cbn. split; [apply Hkeep; reflexivity | exact Hnone].
Qed.

Lemma processEvents_starts (evs : list IAnthropicStreamEvent) :
  forall (state : StreamState) out,
    openedWereStarted state out -> startsFirst out ->
    startsFirst (out ++ fst (processEvents (E:=E) evs state)).
Proof.
  induction evs as [| event rest IH]; intros state out Hinv Hout; cbn.
  - rewrite app_nil_r. exact Hout.
  - pose proof (processStreamEvent_starts event state out Hinv) as Hstep.
    cbn zeta in Hstep.
    destruct (processStreamEvent (E:=E) event state) as [parts state1].
    cbn [fst snd] in Hstep. destruct Hstep as [Hinv1 Hparts].
    specialize (IH state1 (out ++ parts) Hinv1 (startsFirst_app _ _ Hout Hparts)).
    destruct (processEvents (E:=E) rest state1) as [more state2].
    cbn [fst] in *. rewrite app_assoc. exact IH.
Qed.

(** X16: in every stream, a [text-delta] or [text-end] for an id comes
    only after a [text-start] for that id, also when the vendor sent a
    delta without a block start. *)
Theorem text_parts_follow_their_start
    (source : AsyncIterable E) (k : nat) (p : LanguageModelV3StreamPart E) (id : string) :
  chunks (processStream source) !! k = Some p ->
  p = text_end id \/ (exists d, p = text_delta id d) ->
  text_start id ∈ take k (chunks (processStream source)).
Proof.
  pose (front := match events source with
                 | [] => []
                 | _ :: _ => [stream_start []]
                 end : list (LanguageModelV3StreamPart E)).
  pose (closing := match ending source with
                   | Completed => finishPart (snd (processEvents (E:=E) (events source)
                                                                 initialState))
                   | Raised fault => error fault
                   end).
  assert (Hchunks : chunks (processStream source) =
                    (front ++ fst (processEvents (events source) initialState))
                    ++ [closing]).
  { unfold processStream. rewrite consume_processEvents. cbn [fst snd].
    subst front closing. destruct (ending source); reflexivity. }
  assert (Hfront : startsFirst front).
  { intros j q i Hj Hu. subst front.
    destruct (events source); [discriminate Hj |].
    destruct j; cbn in Hj; [| discriminate Hj].
    inversion Hj; subst q. destruct Hu as [Hu | [d Hu]]; discriminate Hu. }
  assert (Hinv : openedWereStarted initialState front).
  { intros i Hi. cbn in Hi. apply not_elem_of_empty in Hi. contradiction. }
  pose proof (processEvents_starts (events source) initialState _ Hinv Hfront) as Hbody.
  assert (Hall : startsFirst (chunks (processStream source))).
  { rewrite Hchunks. apply startsFirst_app; [exact Hbody |].
    intros j q i Hj Hu.
    destruct j; cbn in Hj; [| discriminate Hj]. inversion Hj; subst q.
    subst closing. destruct (ending source);
      destruct Hu as [Hu | [d Hu]]; discriminate Hu. }
  intros Hk Hu. exact (Hall k p id Hk Hu).
Qed.

End TextStarts.

(** A text delta that arrives without its block start. *)
Definition strayDeltaSource : AsyncIterable string :=
  {| events := [ content_block_delta 2
                   {| d_type := "text_delta"; d_text := Some "Hi"; d_partial_json := None |};
                 content_block_stop 2 ];
     ending := Completed |}.

Lemma text_parts_follow_their_start_witness :
  text_start "text-2" ∈ take 2 (chunks (processStream strayDeltaSource)).
Proof.
  exact (@text_parts_follow_their_start string strayDeltaSource 2
           (text_delta "text-2" "Hi") "text-2" eq_refl
           (or_intror (ex_intro _ "Hi" eq_refl))).
Defined.

(** ** Where tool calls come from *)

(** The events hold the start of a [tool_use] block with this id and
    name, both non-empty. *)
Definition startedToolUse (evs : list IAnthropicStreamEvent) (id name : string) : Prop :=
  id <> "" /\ name <> "" /\
  exists (index : Z) (block : ContentBlockStart),
    content_block_start index block ∈ evs /\
    cb_type block = "tool_use" /\ cb_id block = Some id /\ cb_name block = Some name.

Section ToolCallOrigin.
Context {E : Type}.
Variable known : string -> string -> Prop.

(** Every open accumulator holds a known id and name. *)
Definition accumulatorsKnown (state : StreamState) : Prop :=
  forall (i : Z) (acc : ToolCallAccumulator),
    toolCalls state !! i = Some acc -> known (acc_id acc) (acc_name acc).

(** The start of a tool-use block with a non-empty id and name makes
    them known. *)
Definition startIsKnown (event : IAnthropicStreamEvent) : Prop :=
  match event with
  | content_block_start _ block =>
      forall id name,
        cb_type block = "tool_use" -> cb_id block = Some id -> cb_name block = Some name ->
        id <> "" -> name <> "" -> known id name
  | _ => True
  end.

Definition callsKnown (parts : list (LanguageModelV3StreamPart E)) : Prop :=
  Forall (fun p => forall id name input, p = tool_call id name input -> known id name) parts.

Lemma truthy_true_nonempty (s : string) : truthy s = true -> s <> "".
Proof.
  unfold truthy. intros H ->. discriminate H.
Qed.

Lemma processStreamEvent_origin (event : IAnthropicStreamEvent) (state : StreamState) :
  accumulatorsKnown state -> startIsKnown event ->
  accumulatorsKnown (snd (processStreamEvent (E:=E) event state)) /\
  callsKnown (fst (processStreamEvent (E:=E) event state)).
Proof.
  intros Hinv Hev. unfold callsKnown.
  destruct event as [n | index block | index delta | index | reason n | tag].
  - cbn. destruct n; cbn; split; [exact Hinv | constructor | exact Hinv | constructor].
  - cbn. split.
    + destruct (String.eqb (cb_type block) "text"); cbn [snd toolCalls];
        (intros i acc Hacc; cbn [toolCalls] in Hacc;
         destruct (cb_id block) as [id |] eqn:Hid; [| exact (Hinv i acc Hacc)];
         destruct (cb_name block) as [name |] eqn:Hname; [| exact (Hinv i acc Hacc)];
         destruct (String.eqb (cb_type block) "tool_use") eqn:Htag; cbn in Hacc;
           [| exact (Hinv i acc Hacc)];
         destruct (truthy id) eqn:Htid; cbn in Hacc; [| exact (Hinv i acc Hacc)];
         destruct (truthy name) eqn:Htname; cbn in Hacc; [| exact (Hinv i acc Hacc)];
         apply lookup_insert_Some in Hacc;
         destruct Hacc as [[_ <-] | [_ Hacc]]; [| exact (Hinv i acc Hacc)];
         cbn; apply Hev;
           [apply String.eqb_eq; exact Htag | exact Hid | exact Hname
           | apply truthy_true_nonempty; exact Htid
           | apply truthy_true_nonempty; exact Htname]).
    + destruct (String.eqb (cb_type block) "text"); cbn; repeat constructor;
        intros id name input H; discriminate H.
  - cbn. split.
    + assert (Hcalls : accumulatorsKnown
                {| toolCalls :=
                     match d_partial_json delta with
                     | Some partial_json =>
                         if String.eqb (d_type delta) "input_json_delta" && truthy partial_json
                         then match toolCalls state !! index with
                              | Some toolCall =>
                                  <[ index := {| acc_id := acc_id toolCall;
                                                 acc_name := acc_name toolCall;
                                                 argsText := (argsText toolCall ++
                                                              partial_json)%string |} ]>
                                    (toolCalls state)
                              | None => toolCalls state
                              end
                         else toolCalls state
                     | None => toolCalls state
                     end;
                   textBlockIds := ∅; inputTokens := 0; outputTokens := 0;
                   finishReasonRaw := "" |}).
      { intros i acc Hacc. cbn [toolCalls] in Hacc.
        destruct (d_partial_json delta) as [pj |]; [| exact (Hinv i acc Hacc)].
        destruct (String.eqb (d_type delta) "input_json_delta" && truthy pj);
          [| exact (Hinv i acc Hacc)].
        destruct (toolCalls state !! index) as [toolCall |] eqn:Hcall;
          [| exact (Hinv i acc Hacc)].
        apply lookup_insert_Some in Hacc.
        destruct Hacc as [[_ <-] | [_ Hacc]]; [| exact (Hinv i acc Hacc)].
        cbn. exact (Hinv index toolCall Hcall). }
      destruct (d_text delta) as [t |];
        [destruct (String.eqb (d_type delta) "text_delta");
           [destruct (bool_decide (index ∈ textBlockIds state)) |] |];
        cbn [snd]; intros i acc Hacc; exact (Hcalls i acc Hacc).
    + destruct (d_text delta) as [t |];
        [destruct (String.eqb (d_type delta) "text_delta");
           [destruct (bool_decide (index ∈ textBlockIds state)) |] |];
        cbn; repeat constructor; intros id name input H; discriminate H.
  - cbn. destruct (toolCalls state !! index) as [toolCall |] eqn:Hcall; cbn; split.
    + intros i acc Hacc. cbn in Hacc. apply lookup_delete_Some in Hacc.
      destruct Hacc as [_ Hacc]. exact (Hinv i acc Hacc).
    + apply Forall_app. split.
      * destruct (bool_decide (index ∈ textBlockIds state)); repeat constructor;
          intros id name input H; discriminate H.
      * constructor; [| constructor]. intros id name input H. inversion H; subst.
        exact (Hinv index toolCall Hcall).
    + exact Hinv.
    + destruct (bool_decide (index ∈ textBlockIds state)); repeat constructor;
        intros id name input H; discriminate H.
  - cbn. split; [exact Hinv | constructor].
  - cbn. split; [exact Hinv | constructor].
Qed.

Lemma processEvents_origin (evs : list IAnthropicStreamEvent) :
  forall state : StreamState,
    accumulatorsKnown state -> Forall startIsKnown evs ->
    callsKnown (fst (processEvents (E:=E) evs state)).
Proof.
  induction evs as [| event rest IH]; intros state Hinv Hevs; cbn; [constructor |].
  apply Forall_cons in Hevs. destruct Hevs as [Hev Hevs].
  pose proof (processStreamEvent_origin event state Hinv Hev) as [Hinv1 Hparts].
  destruct (processStreamEvent (E:=E) event state) as [parts state1].
  cbn [fst snd] in *.
  specialize (IH state1 Hinv1 Hevs).
  destruct (processEvents (E:=E) rest state1) as [more state2]. cbn [fst] in *.
  apply Forall_app. split; assumption.
Qed.

End ToolCallOrigin.

Section ToolCallProvenance.
Context {E : Type}.

(** X17: a [tool-call] part is never made up: whenever one is in the
    stream, the events hold the start of a [tool_use] block with that
    very id and name, both non-empty. *)
Theorem tool_calls_come_from_starts
    (source : AsyncIterable E) (id name input : string) :
  tool_call id name input ∈ chunks (processStream source) ->
  startedToolUse (events source) id name.
Proof.
  intros Hin. unfold processStream in Hin. rewrite consume_processEvents in Hin.
  cbn [fst snd] in Hin.
  assert (Hbody : tool_call (E:=E) id name input
                    ∈ fst (processEvents (E:=E) (events source) initialState)).
  { destruct (ending source); cbn [chunks] in Hin;
      repeat (apply elem_of_app in Hin; destruct Hin as [Hin | Hin]);
      try (inversion Hin; fail); try exact Hin.
    - destruct (events source); [inversion Hin |].
      apply list_elem_of_singleton in Hin. discriminate Hin.
    - apply list_elem_of_singleton in Hin. discriminate Hin.
    - destruct (events source); [inversion Hin |].
      apply list_elem_of_singleton in Hin. discriminate Hin.
    - apply list_elem_of_singleton in Hin. discriminate Hin. }
  assert (Hknown : accumulatorsKnown (startedToolUse (events source)) initialState).
  { intros i acc Hacc. cbn in Hacc. rewrite lookup_empty in Hacc. discriminate Hacc. }
  assert (Hstarts : Forall (startIsKnown (startedToolUse (events source)))
                           (events source)).
  { apply Forall_forall. intros event Hevent.
    destruct event as [n | index block | index delta | index | reason n | tag];
      cbn; try exact I.
    intros id' name' Htag Hid Hname Hne Hne'.
    split; [exact Hne |]. split; [exact Hne' |].
    exists index, block. auto. }
  pose proof (processEvents_origin (E:=E) _ _ _ Hknown Hstarts) as Horigin.
  unfold callsKnown in Horigin. rewrite Forall_forall in Horigin.
  exact (Horigin _ Hbody id name input eq_refl).
Qed.

End ToolCallProvenance.

Lemma tool_calls_come_from_starts_witness :
  startedToolUse (toolCallEvents 0 "call_123" "get_weather" exampleDeltas)
    "call_123" "get_weather".
Proof.
  exact (@tool_calls_come_from_starts string
           {| events := toolCallEvents 0 "call_123" "get_weather" exampleDeltas;
              ending := Completed |}
           "call_123" "get_weather" "{location:NYC}"
           (list_elem_of_further _ _ _ (list_elem_of_here _ _))).
Defined.

(** ** How many tool calls *)

(** The event starts a [tool_use] block. *)
Definition startsToolUse (event : IAnthropicStreamEvent) : bool :=
  match event with
  | content_block_start _ block => String.eqb (cb_type block) "tool_use"
  | _ => false
  end.

Definition toolCallCount {E : Type} (parts : list (LanguageModelV3StreamPart E)) : nat :=
  List.length (List.filter isToolCall parts).

Section ToolCallCount.
Context {E : Type}.

Lemma toolCallCount_app (a b : list (LanguageModelV3StreamPart E)) :
  toolCallCount (a ++ b) = toolCallCount a + toolCallCount b.
Proof. unfold toolCallCount. rewrite List.filter_app, length_app. reflexivity. Qed.

Lemma size_insert_le (m : gmap Z ToolCallAccumulator) (i : Z) (x : ToolCallAccumulator) :
  size (<[ i := x ]> m) <= S (size m).
Proof. rewrite map_size_insert. destruct (m !! i); cbn; lia. Qed.

Lemma size_delete_present (m : gmap Z ToolCallAccumulator) (i : Z)
    (x : ToolCallAccumulator) :
  m !! i = Some x -> S (size (delete i m)) = size m.
Proof.
  intros Hx. rewrite <- (map_size_insert_None i x (delete i m)) by apply lookup_delete_eq.
  rewrite insert_delete_eq. rewrite insert_id by exact Hx. reflexivity.
Qed.

Lemma processStreamEvent_count (event : IAnthropicStreamEvent) (state : StreamState) :
  toolCallCount (fst (processStreamEvent (E:=E) event state))
    + size (toolCalls (snd (processStreamEvent (E:=E) event state)))
  <= size (toolCalls state) + (if startsToolUse event then 1 else 0).
Proof.
  destruct event as [n | index block | index delta | index | reason n | tag].
  - cbn. destruct n; cbn; lia.
  - cbn [processStreamEvent startsToolUse].
    assert (Hparts : toolCallCount
              (fst (if String.eqb (cb_type block) "text"
                    then ([text_start (E:=E) (textId index)],
                          ({[ index ]} ∪ textBlockIds state : gset Z))
                    else ([], textBlockIds state))) = 0).
    { destruct (String.eqb (cb_type block) "text"); reflexivity. }
    destruct (String.eqb (cb_type block) "text"); cbn [fst snd toolCalls] in *;
      rewrite Hparts;
      (destruct (cb_id block) as [id |]; [| lia];
       destruct (cb_name block) as [name |]; [| lia];
       destruct (String.eqb (cb_type block) "tool_use");
         cbn [andb]; [| lia];
       destruct (truthy id && truthy name); [| lia];
       pose proof (size_insert_le (toolCalls state) index
                     {| acc_id := id; acc_name := name; argsText := "" |}); lia).
  - cbn [processStreamEvent startsToolUse].
    assert (Hsize : forall ids : gset Z,
              size (toolCalls
                {| toolCalls :=
                     match d_partial_json delta with
                     | Some partial_json =>
                         if String.eqb (d_type delta) "input_json_delta" && truthy partial_json
                         then match toolCalls state !! index with
                              | Some toolCall =>
                                  <[ index := {| acc_id := acc_id toolCall;
                                                 acc_name := acc_name toolCall;
                                                 argsText := (argsText toolCall ++
                                                              partial_json)%string |} ]>
                                    (toolCalls state)
                              | None => toolCalls state
                              end
                         else toolCalls state
                     | None => toolCalls state
                     end;
                   textBlockIds := ids; inputTokens := inputTokens state;
                   outputTokens := outputTokens state;
                   finishReasonRaw := finishReasonRaw state |})
              = size (toolCalls state)).
    { intros ids. cbn [toolCalls].
      destruct (d_partial_json delta) as [pj |]; [| reflexivity].
      destruct (String.eqb (d_type delta) "input_json_delta" && truthy pj);
        [| reflexivity].
      destruct (toolCalls state !! index) as [toolCall |] eqn:Hcall; [| reflexivity].
      apply map_size_insert_Some. rewrite Hcall. eexists. reflexivity. }
    destruct (d_text delta) as [t |];
      [destruct (String.eqb (d_type delta) "text_delta");
         [destruct (bool_decide (index ∈ textBlockIds state)) |] |];
      cbn [fst snd]; rewrite Hsize; cbn; lia.
  - cbn [processStreamEvent startsToolUse].
    destruct (toolCalls state !! index) as [toolCall |] eqn:Hcall; cbn [fst snd toolCalls].
    + rewrite toolCallCount_app.
      pose proof (size_delete_present _ _ _ Hcall) as Hsize.
      destruct (bool_decide (index ∈ textBlockIds state)); cbn; lia.
    + destruct (bool_decide (index ∈ textBlockIds state)); cbn; lia.
  - cbn. lia.
  - cbn. lia.
Qed.

Lemma processEvents_count (evs : list IAnthropicStreamEvent) :
  forall state : StreamState,
    toolCallCount (fst (processEvents (E:=E) evs state))
      + size (toolCalls (snd (processEvents (E:=E) evs state)))
    <= size (toolCalls state) + List.length (List.filter startsToolUse evs).
Proof.
  induction evs as [| event rest IH]; intros state; cbn [processEvents List.filter].
  - cbn. lia.
  - pose proof (processStreamEvent_count event state) as Hstep.
    destruct (processStreamEvent (E:=E) event state) as [parts state1].
    specialize (IH state1).
    destruct (processEvents (E:=E) rest state1) as [more state2].
    cbn [fst snd] in *. rewrite toolCallCount_app.
    destruct (startsToolUse event); cbn [List.length]; lia.
Qed.

(** X18: a stream holds at most as many [tool-call] parts as the
    events hold starts of [tool_use] blocks: a block start gives at
    most one tool call, and deltas or stops alone give none. *)
Theorem tool_calls_bounded_by_starts (source : AsyncIterable E) :
  toolCallCount (chunks (processStream source)) <=
    List.length (List.filter startsToolUse (events source)).
Proof.
  unfold processStream. rewrite consume_processEvents. cbn [fst snd].
  pose proof (processEvents_count (events source) initialState) as Hcount.
  change (toolCalls initialState) with (∅ : gmap Z ToolCallAccumulator) in Hcount.
  rewrite map_size_empty in Hcount.
  assert (Hfront : toolCallCount
            (match events source with
             | [] => []
             | _ :: _ => [stream_start (E:=E) []]
             end) = 0).
  { destruct (events source); reflexivity. }
  destruct (ending source); cbn [chunks]; rewrite !toolCallCount_app, Hfront;
    cbn in *; lia.
Qed.

End ToolCallCount.

(* ===================================================================== *)
(** * Further properties of the request body and the provider *)
(* ===================================================================== *)

Section RequestBody.
Context `{rt : JsRuntime}.


(** X20: what the caller supplies is rendered: [stream: true] when
    streaming; a temperature, top-p, top-k, a stop-sequence list and a
    tool choice whenever given; the system text whenever the converted
    prompt has a non-empty one; the tools whenever at least one
    function tool is supplied, and then exactly the function tools, in
    order, with name, description and schema kept, tools of other
    kinds being dropped; with function tools lacking, no [tools]
    field. *)
Theorem request_body_renders_supplied_inputs
    (this : AzureAnthropicLanguageModel) (opts : LanguageModelV3CallOptions)
    (isStreaming : bool) (body : RequestBody) :
  buildRequestBody this opts isStreaming = Returns body ->
  (isStreaming = true -> stream body = Some true) /\
  (forall t, temperature opts = Some t -> body_temperature body = Some t) /\
  (forall p, topP opts = Some p -> top_p body = Some p) /\
  (forall k, topK opts = Some k -> top_k body = Some k) /\
  (forall l, stopSequences opts = Some l -> stop_sequences body = Some l) /\
  (forall c, toolChoice opts = Some c -> tool_choice body = Some (convertToolChoice c)) /\
  (forall converted s,
      convertPrompt (prompt opts) = Returns converted ->
      cp_system converted = Some s -> s <> "" -> Model.system body = Some s) /\
  (forall supplied,
      tools opts = Some supplied ->
      match functionToolsOf supplied with
      | [] => body_tools body = None
      | fts =>
          exists ts, body_tools body = Some ts /\
            Forall2 (fun f t => at_name t = ft_name f /\
                                at_description t = ft_description f /\
                                at_input_schema t = ft_inputSchema f) fts ts
      end).
Proof.
  intros Hbody. unfold buildRequestBody in Hbody.
  apply outcome_bind_Returns in Hbody. destruct Hbody as (converted & Hconv & Hbody).
  inversion Hbody; subst body; clear Hbody. cbn.
  split; [intros ->; reflexivity |].
  split; [auto |]. split; [auto |]. split; [auto |]. split; [auto |].
  split; [intros c ->; reflexivity |].
  split.
  - intros converted' s Hconv' Hsys Hne. rewrite Hconv in Hconv'.
    inversion Hconv'; subst converted'. rewrite Hsys.
    rewrite (truthy_nonempty s Hne). reflexivity.
  - intros supplied ->. cbn.
    destruct (functionToolsOf supplied) as [| f fs]; [reflexivity |].
    cbn. eexists. split; [reflexivity |].
    constructor; [auto |].
    induction fs as [| g fs IH]; cbn; constructor; auto.
Qed.

End RequestBody.


Lemma request_body_renders_supplied_inputs_witness :
  stream exampleBody = Some true /\
  body_temperature exampleBody = Some (QArith_base.Qmake 7 10) /\
  stop_sequences exampleBody = Some ["END"] /\
  tool_choice exampleBody = Some (convertToolChoice ChoiceRequired).
Proof.
  destruct (@request_body_renders_supplied_inputs exampleRuntime
              exampleModel exampleOptions true exampleBody eq_refl)
    as (Hstream & Htemp & _ & _ & Hstop & Hchoice & _).
  exact (conj (Hstream eq_refl)
           (conj (Htemp _ eq_refl) (conj (Hstop _ eq_refl) (Hchoice _ eq_refl)))).
Defined.

(** ** The provider *)

Import Provider.

(** X21: [createAzureAnthropic] checks the base URL first and the API
    key second: an empty base URL throws the validation error
    "baseURL is required" whatever the key is, an empty key with a
    base URL throws "apiKey is required", and with both present the
    provider is returned with the key, the URL and the headers handed
    to the client unchanged.  Whatever it throws is a validation error
    without a field name. *)
Theorem createAzureAnthropic_validates (providerOptions : IAzureAnthropicProviderOptions) :
  (baseURL providerOptions = "" ->
   createAzureAnthropic providerOptions =
     Throws (new_AzureAnthropicError validation "baseURL is required" None)) /\
  (baseURL providerOptions <> "" -> apiKey providerOptions = "" ->
   createAzureAnthropic providerOptions =
     Throws (new_AzureAnthropicError validation "apiKey is required" None)) /\
  (baseURL providerOptions <> "" -> apiKey providerOptions <> "" ->
   createAzureAnthropic providerOptions =
     Returns {| client := {| client_apiKey := apiKey providerOptions;
                             client_baseURL := baseURL providerOptions;
                             client_defaultHeaders := headers providerOptions |} |}) /\
  (forall e, createAzureAnthropic providerOptions = Throws e ->
             code e = validation /\ field e = None).
Proof.
  unfold createAzureAnthropic.
  split; [intros ->; reflexivity |].
  split.
  { intros Hurl ->. rewrite (truthy_nonempty _ Hurl). reflexivity. }
  split.
  { intros Hurl Hkey. rewrite (truthy_nonempty _ Hurl), (truthy_nonempty _ Hkey).
    reflexivity. }
  intros e H.
  destruct (truthy (baseURL providerOptions)); cbn in H;
    [destruct (truthy (apiKey providerOptions)); cbn in H; [discriminate H |] |];
    inversion H; subst; split; reflexivity.
Qed.

Lemma createAzureAnthropic_validates_witness :
  createAzureAnthropic {| baseURL := ""; apiKey := ""; headers := None |} =
    Throws (new_AzureAnthropicError validation "baseURL is required" None).
Proof.
  exact (proj1 (createAzureAnthropic_validates
                  {| baseURL := ""; apiKey := ""; headers := None |}) eq_refl).
Defined.

Section ProviderModels.
Context `{rt : JsRuntime}.

(** X22: a model made by a provider asks for the model id it was made
    with, whatever the provider's settings: the request body it builds
    names that id, and without a token limit in the call it takes the
    limit the model was made with, or 4096 when it was made without
    options. *)
Theorem provider_model_request
    (provider : IAzureAnthropicProvider) (id : string)
    (modelOptions : option IAzureAnthropicModelOptions)
    (opts : LanguageModelV3CallOptions) (isStreaming : bool) (body : RequestBody) :
  buildRequestBody (createModel provider id modelOptions) opts isStreaming = Returns body ->
  model body = id /\
  (maxOutputTokens opts = None ->
   max_tokens body =
     match modelOptions with
     | Some o => default (QArith_base.Qmake 4096 1) (opt_maxOutputTokens o)
     | None => QArith_base.Qmake 4096 1
     end).
Proof.
  intros Hbody. unfold buildRequestBody in Hbody.
  apply outcome_bind_Returns in Hbody. destruct Hbody as (converted & _ & Hbody).
  inversion Hbody; subst body; clear Hbody. cbn.
  split; [reflexivity |].
  intros ->. cbn. destruct modelOptions as [o |]; cbn; [| reflexivity].
  destruct (opt_maxOutputTokens o); reflexivity.
Qed.

End ProviderModels.

Lemma provider_model_request_witness :
  model exampleBody = "claude-sonnet-4-5-20251001" /\
  (maxOutputTokens exampleOptions = None ->
   max_tokens exampleBody = QArith_base.Qmake 4096 1).
Proof.
  exact (@provider_model_request exampleRuntime
           {| client := {| client_apiKey := "key";
                           client_baseURL := "https://example.test/anthropic";
                           client_defaultHeaders := None |} |}
           "claude-sonnet-4-5-20251001" None exampleOptions true exampleBody eq_refl).
Defined.
